(** * Bending Light: a shallow embedding of the view code and of the optics core

    JavaScript numbers are modelled as exact real numbers ([R]): rounding,
    [NaN] and the infinities of IEEE doubles are outside the model, so every
    statement about a numeric value is a statement of exact arithmetic.
    At a zero divisor JavaScript yields [NaN] or an infinity, values the
    model does not have: the theorems that divide carry the hypothesis that
    the divisor is not zero.

    The file has two parts.  The first part holds the definitions: the
    libraries the code is written against (dot's [Vector2] and [Bounds2],
    axon's [Property]), the optics core as the specification describes it, and
    the view classes as the sources have them.  The second part holds the
    theorems. *)

From Stdlib Require Import Reals Lra Lia String List Bool Arith.
Import ListNotations.

(* ================================================================== *)
(** * Part 1: definitions *)
(* ================================================================== *)

(** ** JavaScript comparison operators on numbers *)

Module Num.

(** [a < b] *)
Definition ltb (a b : R) : bool := if Rlt_dec a b then true else false.

(** [a <= b] *)
Definition leb (a b : R) : bool := if Rle_dec a b then true else false.

(** [a > b] *)
Definition gtb (a b : R) : bool := ltb b a.

End Num.

(** ** dot/Vector2 *)

Module Vector2.
Local Open Scope R_scope.

Record t : Type := mk { x : R; y : R }.

Definition plus (a b : t) : t := mk (x a + x b) (y a + y b).
Definition minus (a b : t) : t := mk (x a - x b) (y a - y b).
Definition timesScalar (a : t) (k : R) : t := mk (x a * k) (y a * k).
Definition negated (a : t) : t := mk (- x a) (- y a).
Definition dot (a b : t) : R := x a * x b + y a * y b.

(** the vector rotated by a quarter turn counter-clockwise *)
Definition perpendicular (a : t) : t := mk (- y a) (x a).

(** [Vector2.createPolar( 1, angle )] *)
Definition unitPolar (angle : R) : t := mk (cos angle) (sin angle).

End Vector2.

(** ** dot/Bounds2 *)

Module Bounds2.
Local Open Scope R_scope.

Record t : Type := mk { minX : R; minY : R; maxX : R; maxY : R }.

Definition erodedXY (b : t) (dx dy : R) : t :=
  mk (minX b + dx) (minY b + dy) (maxX b - dx) (maxY b - dy).

Definition containsCoordinates (b : t) (px py : R) : bool :=
  Num.leb (minX b) px && Num.leb px (maxX b) &&
  Num.leb (minY b) py && Num.leb py (maxY b).

Definition containsPoint (b : t) (p : Vector2.t) : bool :=
  containsCoordinates b (Vector2.x p) (Vector2.y p).

End Bounds2.

(** ** axon/Property: a value together with the value it was created with *)

Module Property.

Record t (A : Type) : Type := mk { value : A; initialValue : A }.
Arguments mk {A} _ _.
Arguments value {A} _.
Arguments initialValue {A} _.

Definition create {A : Type} (v : A) : t A := mk v v.
Definition get {A : Type} (p : t A) : A := value p.
Definition set {A : Type} (v : A) (p : t A) : t A := mk v (initialValue p).
Definition reset {A : Type} (p : t A) : t A := mk (initialValue p) (initialValue p).

End Property.

(** ** The Snell / Fresnel solver (specification, section 4.3) *)

Module SnellFresnel.
Local Open Scope R_scope.

(** The optical role a ray segment is tagged with. *)
Inductive Role : Type :=
| Incident
| Reflected
| Refracted
| InternallyReflected.

(** Modelled from the spec: the Ray of the data model, section 3 (the
    physics model classes are not among the sources).  A ray has an origin,
    a unit direction, a wavelength, a power and the refractive index of the
    medium it occupies. *)
Record Ray : Type := mkRay {
  origin : Vector2.t;
  direction : Vector2.t;
  wavelength : R;
  power : R;
  index : R
}.

(** Modelled from the spec: the Intersection of the data model, section 3:
    a point, the unit normal oriented against the incoming ray, and the
    refractive indices on the incident side ([n1]) and the far side ([n2]). *)
Record Intersection : Type := mkIntersection {
  point : Vector2.t;
  normal : Vector2.t;
  n1 : R;
  n2 : R
}.

(** Modelled from the spec: the s- and p-polarization reflectances of
    section 4.3, item 4.  The specification names them and gives no formula,
    so they are the two operations of an interface; each takes
    [n1 n2 theta1 theta2]. *)
Class Fresnel : Type := {
  reflectanceS : R -> R -> R -> R -> R;
  reflectanceP : R -> R -> R -> R -> R
}.

(** Modelled from the spec: section 4.3, item 1, the angle of incidence
    from the dot product of direction and normal.  The normal faces the
    incoming ray, so the cosine of the angle is the negated dot product. *)
Definition incidenceAngle (d n : Vector2.t) : R :=
  acos (- Vector2.dot d n).

(** Modelled from the spec: section 4.3, item 2, the critical angle check
    [n1 > n2 and sin theta1 > n2/n1]. *)
Definition totalInternalReflection (n1 n2 theta1 : R) : bool :=
  Num.gtb n1 n2 && Num.gtb (sin theta1) (n2 / n1).

(** Modelled from the spec: section 4.3, item 3, Snell's law
    [sin theta2 = (n1/n2) sin theta1]. *)
Definition refractionAngle (n1 n2 theta1 : R) : R :=
  asin (n1 / n2 * sin theta1).

(** Modelled from the spec: section 4.3, item 4, the unpolarized average of
    the s- and p-polarization reflectances. *)
Definition reflectance `{Fresnel} (n1 n2 theta1 theta2 : R) : R :=
  (reflectanceS n1 n2 theta1 theta2 + reflectanceP n1 n2 theta1 theta2) / 2.

(** The unit tangent of the interface on the side the ray travels to. *)
Definition tangentAlong (d n : Vector2.t) : Vector2.t :=
  let t := Vector2.perpendicular n in
  if Num.leb 0 (Vector2.dot d t) then t else Vector2.negated t.

(** Modelled from the spec: section 4.3, item 3, the reflected ray at angle
    [theta1] mirrored about the normal. *)
Definition reflectedDirection (d n : Vector2.t) : Vector2.t :=
  Vector2.minus d (Vector2.timesScalar n (2 * Vector2.dot d n)).

(** Modelled from the spec: section 4.3, item 3, the refracted ray bent to
    [theta2] on the far side of the normal: the far-side normal [-n] turned
    by [theta2] towards the tangent the ray travels along. *)
Definition refractedDirection (d n : Vector2.t) (theta2 : R) : Vector2.t :=
  Vector2.plus (Vector2.timesScalar (Vector2.negated n) (cos theta2))
               (Vector2.timesScalar (tangentAlong d n) (sin theta2)).

(** What the solver produces at one interface: always a reflected ray, and
    a refracted ray unless the interface is in total internal reflection. *)
Record Split : Type := mkSplit {
  reflected : Ray;
  reflectedRole : Role;
  refracted : option Ray
}.

(** Modelled from the spec: the contract of section 4.3, items 1 to 4. *)
Definition solve `{Fresnel} (r : Ray) (i : Intersection) : Split :=
  let theta1 := incidenceAngle (direction r) (normal i) in
  let mirrored := reflectedDirection (direction r) (normal i) in
  if totalInternalReflection (n1 i) (n2 i) theta1 then
    mkSplit (mkRay (point i) mirrored (wavelength r) (power r) (n1 i))
            InternallyReflected
            None
  else
    let theta2 := refractionAngle (n1 i) (n2 i) theta1 in
    let bigR := reflectance (n1 i) (n2 i) theta1 theta2 in
    mkSplit (mkRay (point i) mirrored (wavelength r) (power r * bigR) (n1 i))
            Reflected
            (Some (mkRay (point i)
                         (refractedDirection (direction r) (normal i) theta2)
                         (wavelength r)
                         (power r * (1 - bigR))
                         (n2 i))).

(** The angle between a direction and the far-side normal [-n]: the arc
    cosine of their dot product over the product of their lengths. *)
Definition angleToFarNormal (d n : Vector2.t) : R :=
  acos (Vector2.dot d (Vector2.negated n)
        / (sqrt (Vector2.dot d d) * sqrt (Vector2.dot n n))).

(** Modelled from the spec: the critical angle of the glossary, the
    incidence angle whose sine is [n2/n1]; it exists when [n1 > n2]. *)
Definition criticalAngle (n1 n2 : R) : R := asin (n2 / n1).

(** An incidence angle is below the critical angle when the interface has
    no critical angle (the far side is not the less dense one) or the angle
    is strictly less than it. *)
Definition belowCriticalAngle (n1 n2 theta1 : R) : Prop :=
  n1 <= n2 \/ theta1 < criticalAngle n1 n2.

(** The Fresnel equations of optics for the two polarizations, an instance
    of the interface above. *)
#[global] Instance FresnelEquations : Fresnel := {
  reflectanceS := fun n1 n2 theta1 theta2 =>
    ((n1 * cos theta1 - n2 * cos theta2) / (n1 * cos theta1 + n2 * cos theta2))²;
  reflectanceP := fun n1 n2 theta1 theta2 =>
    ((n1 * cos theta2 - n2 * cos theta1) / (n1 * cos theta2 + n2 * cos theta1))²
}.

End SnellFresnel.

(** ** The ray propagation engine (specification, section 4.4) *)

Module PropagationEngine.
Import SnellFresnel.
Local Open Scope R_scope.

(** Modelled from the spec: the Medium of the data model, section 3. *)
Record Medium : Type := mkMedium {
  mediumId : string;
  baselineIndex : R;
  dispersionCoefficients : list R
}.

(** Modelled from the spec: the Prism of the data model, section 3. *)
Record Prism : Type := mkPrism {
  vertices : list Vector2.t;
  prismMedium : Medium
}.

Inductive ColorMode : Type :=
| Monochromatic
| White.

(** Modelled from the spec: the laser pose of section 6. *)
Record LaserState : Type := mkLaserState {
  emissionPoint : Vector2.t;
  angle : R;
  laserWavelength : R;
  colorMode : ColorMode
}.

(** Modelled from the spec: what a recomputation reads (section 6). *)
Record Inputs : Type := mkInputs {
  laser : LaserState;
  prisms : list Prism;
  environment : Medium
}.

(** Modelled from the spec: the RaySegment of the data model, section 3. *)
Record RaySegment : Type := mkRaySegment {
  segmentRay : Ray;
  startPoint : Vector2.t;
  endPoint : Vector2.t;
  segmentRole : Role
}.

(** Modelled from the spec: the collaborators of the engine whose contracts
    the specification states without an algorithm (the dispersion formula of
    section 4.1, the intersection search of section 4.2, the medium that
    contains a point), and the constants it leaves open (escape distance,
    power threshold, maximum recursion depth, white-light palette). *)
Class Scene : Type := {
  indexAt : Medium -> R -> R;
  nearestIntersection : list Prism -> Medium -> Ray -> option Intersection;
  mediumContaining : list Prism -> Vector2.t -> option Medium;
  ESCAPE_DISTANCE : R;
  POWER_THRESHOLD : R;
  MAX_DEPTH : nat;
  WHITE_LIGHT_WAVELENGTHS : list R
}.

(** An entry of the work queue: a ray, its role and its recursion depth. *)
Record Pending : Type := mkPending {
  ray : Ray;
  role : Role;
  depth : nat
}.

Record EngineState : Type := mkEngineState {
  queue : list Pending;
  output : list RaySegment
}.

Section Engine.
Context `{Fresnel} `{Scene}.

(** Modelled from the spec: section 4.3, item 5: a ray whose power falls
    below the threshold (a fraction of the source power, which is 1) is
    discarded. *)
Definition passesThreshold (r : Ray) : bool :=
  negb (Num.ltb (power r) POWER_THRESHOLD).

(** The child rays the solver produces, reflected first. *)
Definition candidates (p : Pending) (i : Intersection) : list Pending :=
  let s := solve (ray p) i in
  mkPending (reflected s) (reflectedRole s) (S (depth p)) ::
  match refracted s with
  | Some t => [mkPending t Refracted (S (depth p))]
  | None => []
  end.

(** Modelled from the spec: section 4.4, step 3 and step 4: the children
    that pass the power threshold are enqueued while depth budget
    remains; a ray at the maximum depth is not split further. *)
Definition children (p : Pending) (i : Intersection) : list Pending :=
  if (depth p <? MAX_DEPTH)%nat then
    filter (fun c => passesThreshold (ray c)) (candidates p i)
  else [].

(** Modelled from the spec: section 4.4, steps 1 to 3, one turn of the
    loop: pop a ray, find its nearest intersection, emit its segment and
    enqueue its children. *)
Definition step (inp : Inputs) (st : EngineState) : EngineState :=
  match queue st with
  | [] => st
  | p :: rest =>
      let r := ray p in
      match nearestIntersection (prisms inp) (environment inp) r with
      | None =>
          let far := Vector2.plus (origin r)
                       (Vector2.timesScalar (direction r) ESCAPE_DISTANCE) in
          mkEngineState rest
            (output st ++ [mkRaySegment r (origin r) far (role p)])
      | Some i =>
          mkEngineState (rest ++ children p i)
            (output st ++ [mkRaySegment r (origin r) (point i) (role p)])
      end
  end.

(** The loop of section 4.4, with an explicit bound on its turns. *)
Fixpoint run (fuel : nat) (inp : Inputs) (st : EngineState) : EngineState :=
  match fuel with
  | O => st
  | S fuel' =>
      match queue st with
      | [] => st
      | _ :: _ => run fuel' inp (step inp st)
      end
  end.

(** The number of rays a ray with [k] levels of depth budget left can
    give rise to, itself included: [2^(k+1) - 1]. *)
Fixpoint budget (k : nat) : nat :=
  match k with
  | O => 1
  | S k' => S (2 * budget k')
  end.

(** Modelled from the spec: section 4.4, the seed: the ray emitted from
    the laser with power 1, starting in the medium that contains the
    laser tip, the environment by default. *)
Definition seed (inp : Inputs) (lambda : R) : Pending :=
  let tip := emissionPoint (laser inp) in
  let m := match mediumContaining (prisms inp) tip with
           | Some m => m
           | None => environment inp
           end in
  mkPending (mkRay tip (Vector2.unitPolar (angle (laser inp))) lambda 1
                   (indexAt m lambda))
            Incident 0.

Definition start (inp : Inputs) (lambda : R) : EngineState :=
  mkEngineState [seed inp lambda] [].

(** One run of the engine for one wavelength. *)
Definition propagate (inp : Inputs) (lambda : R) : list RaySegment :=
  output (run (budget MAX_DEPTH) inp (start inp lambda)).

(** Modelled from the spec: section 4.4, white light runs the algorithm
    independently per sampled wavelength and aggregates the segments. *)
Definition propagateAll (inp : Inputs) : list RaySegment :=
  match colorMode (laser inp) with
  | Monochromatic => propagate inp (laserWavelength (laser inp))
  | White => flat_map (propagate inp) WHITE_LIGHT_WAVELENGTHS
  end.

(** What holds of every entry of the work queue: its depth is within the
    bound, and unless it is the seed it has passed the power threshold. *)
Definition admissible (p : Pending) : Prop :=
  (depth p <= MAX_DEPTH)%nat
  /\ (depth p = 0%nat \/ passesThreshold (ray p) = true).

(** The weight of a queue: the turns of the loop it can still cause. *)
Definition weight (q : list Pending) : nat :=
  list_sum (map (fun p => budget (MAX_DEPTH - depth p)) q).

End Engine.

End PropagationEngine.

(** ** The wave sampler (specification, section 4.5) *)

Module WaveSampler.
Local Open Scope R_scope.

(** Modelled from the spec: the WaveSample of the data model, section 3. *)
Record WaveSample : Type := mkWaveSample {
  time : R;
  amplitude : R
}.

(** Modelled from the spec: section 4.5, the sliding window: a new sample
    is appended and only the most recent [N] samples are retained, the
    oldest discarded first. *)
Definition addSample (N : nat) (s : WaveSample) (buffer : list WaveSample)
  : list WaveSample :=
  let grown := buffer ++ [s] in
  skipn (length grown - N) grown.

(** The buffer after a sequence of samples has arrived, in that order. *)
Definition addSamples (N : nat) (arrivals buffer : list WaveSample)
  : list WaveSample :=
  fold_left (fun b s => addSample N s b) arrivals buffer.

(** What one sampling tick reads from the simulation. *)
Record Sampling : Type := mkSampling {
  simulationTime : R;
  phaseIncrement : R;
  powerAtProbe : Vector2.t -> R
}.

End WaveSampler.

(** ** The probe of the wave sensor *)

Module Probe.
Import WaveSampler.
Local Open Scope R_scope.

(** Modelled from the spec: the probe of section 4.5 (the model class is
    not among the sources): a position, its recorded series and its phase
    counter. *)
Record t : Type := mk {
  positionProperty : Property.t Vector2.t;
  series : list WaveSample;
  phase : R
}.

Definition position (p : t) : Vector2.t := Property.get (positionProperty p).

Definition setPosition (v : Vector2.t) (p : t) : t :=
  mk (Property.set v (positionProperty p)) (series p) (phase p).

Definition translateXY (dx dy : R) (p : t) : t :=
  setPosition (Vector2.mk (Vector2.x (position p) + dx)
                          (Vector2.y (position p) + dy)) p.

(** Modelled from the spec: section 4.5, the sample a tick records:
    [(simulationTime, sin(phase) * powerAtProbe)], with the phase already
    advanced by the tick. *)
Definition sampleAt (ctx : Sampling) (p : t) : WaveSample :=
  mkWaveSample (simulationTime ctx)
               (sin (phase p + phaseIncrement ctx)
                * powerAtProbe ctx (position p)).

(** Modelled from the spec: section 4.5, one sampling tick: the phase
    advances and the sample enters the window of capacity [N]. *)
Definition step (N : nat) (ctx : Sampling) (p : t) : t :=
  mk (positionProperty p)
     (addSample N (sampleAt ctx p) (series p))
     (phase p + phaseIncrement ctx).

(** The probe after a sequence of ticks. *)
Fixpoint steps (N : nat) (ticks : list Sampling) (p : t) : t :=
  match ticks with
  | [] => p
  | ctx :: rest => steps N rest (step N ctx p)
  end.

(** The samples a sequence of ticks records, in the order of the ticks. *)
Fixpoint samples (N : nat) (ticks : list Sampling) (p : t) : list WaveSample :=
  match ticks with
  | [] => []
  | ctx :: rest => sampleAt ctx p :: samples N rest (step N ctx p)
  end.

(** Modelled from the spec: section 3, samples are cleared on reset; the
    position returns to its initial value and the phase counter starts
    over. *)
Definition reset (p : t) : t :=
  mk (Property.reset (positionProperty p)) [] 0.

End Probe.

(** ** The wave sensor model *)

Module WaveSensor.
Local Open Scope R_scope.

(** Modelled from the spec: the wave sensor with its two probes and its
    body (the model class is not among the sources; the fields are the ones
    the view reads). *)
Record t : Type := mk {
  visibleProperty : Property.t bool;
  bodyPositionProperty : Property.t Vector2.t;
  probe1 : Probe.t;
  probe2 : Probe.t
}.

Definition bodyPosition (ws : t) : Vector2.t :=
  Property.get (bodyPositionProperty ws).

Definition setVisible (v : bool) (ws : t) : t :=
  mk (Property.set v (visibleProperty ws)) (bodyPositionProperty ws)
     (probe1 ws) (probe2 ws).

Definition setBodyPosition (v : Vector2.t) (ws : t) : t :=
  mk (visibleProperty ws) (Property.set v (bodyPositionProperty ws))
     (probe1 ws) (probe2 ws).

Definition setProbe2Position (v : Vector2.t) (ws : t) : t :=
  mk (visibleProperty ws) (bodyPositionProperty ws)
     (probe1 ws) (Probe.setPosition v (probe2 ws)).

(** Modelled from the spec: the model method is not among the sources; as
    the view's [dragAllXY] says, it moves all parts together, the body and
    both probes. *)
Definition translateAllXY (dx dy : R) (ws : t) : t :=
  mk (visibleProperty ws)
     (Property.set (Vector2.mk (Vector2.x (bodyPosition ws) + dx)
                               (Vector2.y (bodyPosition ws) + dy))
                   (bodyPositionProperty ws))
     (Probe.translateXY dx dy (probe1 ws))
     (Probe.translateXY dx dy (probe2 ws)).

(** Modelled from the spec: section 4.5, a sampling tick samples each
    probe. *)
Definition step (N : nat) (ctx : WaveSampler.Sampling) (ws : t) : t :=
  mk (visibleProperty ws) (bodyPositionProperty ws)
     (Probe.step N ctx (probe1 ws)) (Probe.step N ctx (probe2 ws)).

(** Modelled from the spec: section 3, samples are cleared on reset; the
    properties return to the values they were created with. *)
Definition reset (ws : t) : t :=
  mk (Property.reset (visibleProperty ws))
     (Property.reset (bodyPositionProperty ws))
     (Probe.reset (probe1 ws)) (Probe.reset (probe2 ws)).

End WaveSensor.

(** ** The chart of the wave sensor and the superclass of the tools screen

    [ChartNode] and [IntroView] are not among the sources, and the
    specification leaves rendering out: each is an abstract state with the
    operations the sources call on it. *)

Class ChartNode (Chart : Type) : Type := {
  (** [chartNode.step( time )] *)
  chartStep : R -> Chart -> Chart;
  (** [chartNode.gridLines.clear()] *)
  gridLinesClear : Chart -> Chart
}.

Class IntroView (Intro : Type) : Type := {
  (** [IntroView.prototype.updateWaveShape.call( this )] *)
  introUpdateWaveShape : Intro -> Intro;
  (** [IntroView.prototype.reset.call( this )] *)
  introReset : Intro -> Intro
}.

(** ** js/more-tools: the sources that require [BENDING_LIGHT/more-tools] *)

Module More_Tools.

(** *** WaveSensorNode: the view of the wave sensor *)

Module WaveSensorNode.
Local Open Scope R_scope.

Definition waveSensorNodeScaleInSideContainer : R := 0.33.
Definition waveSensorNodeScaleOutSideContainer : R := 1.

(** A tween started by [setWaveSensorNodeScaleAnimation]: the point it
    starts from and the point it ends at, each an [x], a [y] and a
    scale. *)
Record Tween : Type := mkTween {
  startX : R; startY : R; startScale : R;
  endX : R; endY : R; endScale : R
}.

(** The state of the node: the wave sensor it shows, the scale of its
    three parts, the layer it is a child of and its chart.  Translations
    and touch areas of scene-graph nodes are derived from these and are
    not part of the state. *)
Record t (Chart : Type) : Type := mk {
  waveSensor : WaveSensor.t;
  bodyNodeScale : R;
  probe1NodeScale : R;
  probe2NodeScale : R;
  inAfterLightLayer2 : bool;
  inBeforeLightLayer2 : bool;
  chartNode : Chart;
  tween : option Tween
}.
Arguments mk {Chart}.
Arguments waveSensor {Chart}.
Arguments bodyNodeScale {Chart}.
Arguments probe1NodeScale {Chart}.
Arguments probe2NodeScale {Chart}.
Arguments inAfterLightLayer2 {Chart}.
Arguments inBeforeLightLayer2 {Chart}.
Arguments chartNode {Chart}.
Arguments tween {Chart}.

Section Methods.
Context {Chart : Type} `{ChartNode Chart}.

Definition withWaveSensor (ws : WaveSensor.t) (node : t Chart) : t Chart :=
  mk ws (bodyNodeScale node) (probe1NodeScale node) (probe2NodeScale node)
     (inAfterLightLayer2 node) (inBeforeLightLayer2 node)
     (chartNode node) (tween node).

Definition withChartNode (c : Chart) (node : t Chart) : t Chart :=
  mk (waveSensor node) (bodyNodeScale node) (probe1NodeScale node)
     (probe2NodeScale node) (inAfterLightLayer2 node)
     (inBeforeLightLayer2 node) c (tween node).

(** [setScaleMagnitude( scale )] on the body and on both probes *)
Definition setScaleMagnitudes (scale : R) (node : t Chart) : t Chart :=
  mk (waveSensor node) scale scale scale
     (inAfterLightLayer2 node) (inBeforeLightLayer2 node)
     (chartNode node) (tween node).

Definition setWaveSensorScale (scale : R) (node : t Chart) : t Chart :=
  setScaleMagnitudes scale node.

Definition setWaveSensorNodeScale (endPositionX endPositionY scale : R)
    (node : t Chart) : t Chart :=
  (* Previous scale for scaling the distance among probeNodes and bodyNode *)
  let prevScale := bodyNodeScale node in
  (* Scaling all components *)
  let node := setScaleMagnitudes scale node in
  (* scale the distance between probe1 and body, and adjust the body position *)
  let ws := waveSensor node in
  let delta1X := Vector2.x (Probe.position (WaveSensor.probe1 ws)) * (1 - scale / prevScale) +
                 Vector2.x (WaveSensor.bodyPosition ws) * scale / prevScale in
  let delta1Y := Vector2.y (Probe.position (WaveSensor.probe1 ws)) * (1 - scale / prevScale) +
                 Vector2.y (WaveSensor.bodyPosition ws) * scale / prevScale in
  let ws := WaveSensor.setBodyPosition (Vector2.mk delta1X delta1Y) ws in
  (* scale the distance between probe1 and probe2, and adjust the probe2 position *)
  let delta2X := Vector2.x (Probe.position (WaveSensor.probe1 ws)) * (1 - scale / prevScale) +
                 Vector2.x (Probe.position (WaveSensor.probe2 ws)) * scale / prevScale in
  let delta2Y := Vector2.y (Probe.position (WaveSensor.probe1 ws)) * (1 - scale / prevScale) +
                 Vector2.y (Probe.position (WaveSensor.probe2 ws)) * scale / prevScale in
  let ws := WaveSensor.setProbe2Position (Vector2.mk delta2X delta2Y) ws in
  (* translate wave sensor to the end position *)
  let ws := WaveSensor.translateAllXY
              (endPositionX - Vector2.x (Probe.position (WaveSensor.probe1 ws)))
              (endPositionY - Vector2.y (Probe.position (WaveSensor.probe1 ws))) ws in
  withWaveSensor ws node.

(** The tween is started; its frames run later, each through
    [tweenUpdate]. *)
Definition setWaveSensorNodeScaleAnimation (endPositionX endPositionY scale : R)
    (node : t Chart) : t Chart :=
  let prevScale := bodyNodeScale node in
  let p1 := Probe.position (WaveSensor.probe1 (waveSensor node)) in
  mk (waveSensor node) (bodyNodeScale node) (probe1NodeScale node)
     (probe2NodeScale node) (inAfterLightLayer2 node)
     (inBeforeLightLayer2 node) (chartNode node)
     (Some (mkTween (Vector2.x p1) (Vector2.y p1) prevScale
                    endPositionX endPositionY scale)).

(** The callback of the tween, called with the interpolated point. *)
Definition tweenUpdate (px py scale : R) (node : t Chart) : t Chart :=
  setWaveSensorNodeScale px py scale node.

Definition addMoreToolsView (node : t Chart) : t Chart :=
  mk (waveSensor node) (bodyNodeScale node) (probe1NodeScale node)
     (probe2NodeScale node)
     (if inAfterLightLayer2 node then inAfterLightLayer2 node else true)
     (if inBeforeLightLayer2 node then false else inBeforeLightLayer2 node)
     (chartNode node) (tween node).

Definition addToSensorPanel (node : t Chart) : t Chart :=
  mk (waveSensor node) (bodyNodeScale node) (probe1NodeScale node)
     (probe2NodeScale node)
     (if inAfterLightLayer2 node then false else inAfterLightLayer2 node)
     (if inBeforeLightLayer2 node then inBeforeLightLayer2 node else true)
     (chartNode node) (tween node).

Definition reset (node : t Chart) : t Chart :=
  let node := setWaveSensorScale waveSensorNodeScaleInSideContainer node in
  let node := withChartNode (gridLinesClear (chartNode node)) node in
  let node := if inAfterLightLayer2 node then addToSensorPanel node else node in
  withWaveSensor (WaveSensor.reset (waveSensor node)) node.

(** The [end] callback of the three drag handlers (probe, body and
    toolbox shape); [insideContainer] is the outcome of the test of the
    dropped node against the bounds of the toolbox. *)
Definition dragEnd (insideContainer : bool) (node : t Chart) : t Chart :=
  if insideContainer then
    let probeInitialPosition :=
      Property.initialValue
        (Probe.positionProperty (WaveSensor.probe1 (waveSensor node))) in
    (* Place back into toolbox with animation. *)
    let node := setWaveSensorNodeScaleAnimation
                  (Vector2.x probeInitialPosition) (Vector2.y probeInitialPosition)
                  waveSensorNodeScaleInSideContainer node in
    let node := reset node in
    let node := withWaveSensor (WaveSensor.setVisible false (waveSensor node)) node in
    addToSensorPanel node
  else node.

(** The visibility flag the step methods test. *)
Definition sensorVisible (node : t Chart) : bool :=
  Property.get (WaveSensor.visibleProperty (waveSensor node)).

(** The series of both probes of the sensor the node shows. *)
Definition recordedSeries (node : t Chart)
  : list WaveSampler.WaveSample * list WaveSampler.WaveSample :=
  (Probe.series (WaveSensor.probe1 (waveSensor node)),
   Probe.series (WaveSensor.probe2 (waveSensor node))).

(** The [start] callback of the drag handler of the toolbox shape, with
    the start point already in model coordinates. *)
Definition shapeDragStart (modelX modelY : R) (node : t Chart) : t Chart :=
  (* animate to full size *)
  let node := setWaveSensorNodeScaleAnimation modelX modelY
                waveSensorNodeScaleOutSideContainer node in
  let node := withWaveSensor (WaveSensor.setVisible true (waveSensor node)) node in
  addMoreToolsView node.

End Methods.

End WaveSensorNode.

(** *** MoreToolsView *)

Module MoreToolsView.

(** What the view reads from [moreToolsModel] besides the wave sensor:
    the simulation time and what a sampling tick of the wave sensor
    needs.  The wave sensor itself is one object shared by the model and
    by the node; it is held once, in the node. *)
Record MoreToolsModel : Type := mkModel {
  time : R;
  capacity : nat;
  phaseIncrement : R;
  powerAtProbe : Vector2.t -> R
}.

Definition sampling (m : MoreToolsModel) : WaveSampler.Sampling :=
  WaveSampler.mkSampling (time m) (phaseIncrement m) (powerAtProbe m).

Record t (Chart Intro : Type) : Type := mk {
  moreToolsModel : MoreToolsModel;
  waveSensorNode : WaveSensorNode.t Chart;
  introView : Intro
}.
Arguments mk {Chart Intro}.
Arguments moreToolsModel {Chart Intro}.
Arguments waveSensorNode {Chart Intro}.
Arguments introView {Chart Intro}.

Section Methods.
Context {Chart Intro : Type} `{ChartNode Chart} `{IntroView Intro}.

(** Update chart node and wave. *)
Definition updateWaveShape (view : t Chart Intro) : t Chart Intro :=
  let intro := introUpdateWaveShape (introView view) in
  let node := waveSensorNode view in
  if Property.get (WaveSensor.visibleProperty (WaveSensorNode.waveSensor node)) then
    let m := moreToolsModel view in
    let node := WaveSensorNode.withWaveSensor
                  (WaveSensor.step (capacity m) (sampling m)
                     (WaveSensorNode.waveSensor node)) node in
    let node := WaveSensorNode.withChartNode
                  (chartStep (time m) (WaveSensorNode.chartNode node)) node in
    mk m node intro
  else mk (moreToolsModel view) node intro.

(** The velocity sensor node, which the method resets too, is not part
    of the state. *)
Definition reset (view : t Chart Intro) : t Chart Intro :=
  mk (moreToolsModel view)
     (WaveSensorNode.reset (waveSensorNode view))
     (introReset (introView view)).

End Methods.

End MoreToolsView.

(** *** ExpandableProtractorNode *)

Module ExpandableProtractorNode.
Local Open Scope R_scope.

(** [ProtractorNode], the superclass, is not among the sources:
    [setProtractorScale] is the operation the subclass calls on it. *)
Class ProtractorNode (Node : Type) : Type := {
  setProtractorScale : R -> Node -> Node
}.

(** Set whether the protractor should be shown as large (expanded) or
    regular. *)
Definition setExpanded {Node : Type} `{ProtractorNode Node}
    (expanded : bool) (node : Node) : Node :=
  setProtractorScale (if expanded then 0.8 else 0.4) node.

End ExpandableProtractorNode.

End More_Tools.

(** ** js/moretools: the sources under [js/moretools] *)

Module Moretools.

(** *** MoreToolsView *)

Module MoreToolsView.
Import More_Tools.

Record t (Chart : Type) : Type := mk {
  moreToolsModel : MoreToolsView.MoreToolsModel;
  waveSensorNode : WaveSensorNode.t Chart
}.
Arguments mk {Chart}.
Arguments moreToolsModel {Chart}.
Arguments waveSensorNode {Chart}.

Section Methods.
Context {Chart : Type} `{ChartNode Chart}.

Definition stepInternal (view : t Chart) : t Chart :=
  let node := waveSensorNode view in
  if Property.get (WaveSensor.visibleProperty (WaveSensorNode.waveSensor node)) then
    let m := moreToolsModel view in
    let node := WaveSensorNode.withWaveSensor
                  (WaveSensor.step (MoreToolsView.capacity m) (MoreToolsView.sampling m)
                     (WaveSensorNode.waveSensor node)) node in
    let node := WaveSensorNode.withChartNode
                  (chartStep (MoreToolsView.time m) (WaveSensorNode.chartNode node)) node in
    mk m node
  else view.

(** The protractor and the velocity sensor node, which the method
    resets too, are not part of the state. *)
Definition reset (view : t Chart) : t Chart :=
  mk (moreToolsModel view) (WaveSensorNode.reset (waveSensorNode view)).

End Methods.

End MoreToolsView.

(** *** ExpandableProtractorNode *)

Module ExpandableProtractorNode.
Import More_Tools.ExpandableProtractorNode.
Local Open Scope R_scope.

(** Set whether the protractor should be shown as large (expanded) or
    regular. *)
Definition setExpanded {Node : Type} `{ProtractorNode Node}
    (expanded : bool) (node : Node) : Node :=
  setProtractorScale (if expanded then 0.8 else 0.4) node.

End ExpandableProtractorNode.

End Moretools.

(** ** js/prisms: PrismBreakView *)

Module PrismBreakView.
Local Open Scope string_scope.

(** What the view reads from [prismBreakModel]: the color mode of the laser
    ([laser.colorModeProperty.value]) and the [dirty] flag. *)
Record PrismBreakModel : Type := mkModel {
  colorMode : string;
  dirty : bool
}.

(** The state of the view: the model, and the white light node, whose state
    is the number of times its [step()] has run ([WhiteLightNode] is not
    among the sources). *)
Record t : Type := mk {
  prismBreakModel : PrismBreakModel;
  whiteLightNode : nat
}.

Definition stepInternal (view : t) : t :=
  if String.eqb (colorMode (prismBreakModel view)) "white"
     && dirty (prismBreakModel view)
  then
    mk (mkModel (colorMode (prismBreakModel view)) false)
       (S (whiteLightNode view))
  else view.

(** [step( dt )]: the timer calls [stepInternal] once per elapsed event;
    [events] is their number for this [dt]. *)
Definition step (events : nat) (view : t) : t :=
  Nat.iter events stepInternal view.

(** Modelled from the spec: section 6, a change of an input of the engine
    sets the indicator (the model class is not among the sources). *)
Definition inputChanged (view : t) : t :=
  mk (mkModel (colorMode (prismBreakModel view)) true) (whiteLightNode view).

End PrismBreakView.

(** ** js/common: LaserNode *)

Module LaserNode.
Local Open Scope R_scope.

(** The laser model is not among the sources: these are the operations and
    properties the rotation drag handler uses. *)
Class Laser (L : Type) : Type := {
  getAngle : L -> R;
  setAngle : R -> L -> L;
  (** [laser.emissionPointProperty.value] *)
  emissionPoint : L -> Vector2.t;
  (** [laser.pivotProperty.value] *)
  pivot : L -> Vector2.t;
  (** [laser.waveProperty.value] *)
  wave : L -> bool;
  topLeftQuadrant : L -> bool
}.

(** phetcommon/ModelViewTransform2: the conversions the handler calls. *)
Record ModelViewTransform2 : Type := mkTransform {
  viewToModelX : R -> R;
  viewToModelY : R -> R;
  viewToModelBounds : Bounds2.t -> Bounds2.t
}.

(** The state the handler acts on: the laser and the two properties that
    show the drag handles. *)
Record t (L : Type) : Type := mk {
  laser : L;
  showRotationDragHandles : bool;
  showTranslationDragHandles : bool
}.
Arguments mk {L}.
Arguments laser {L}.
Arguments showRotationDragHandles {L}.
Arguments showTranslationDragHandles {L}.

Section RotationTarget.
Context {L : Type} `{Laser L}.

(** The constructor's arguments and what the handler reads from its
    surroundings: the transform, the function that clamps the drag angle, the
    value of [dragBoundsProperty], the height of the laser image, the
    constant [BendingLightConstants.MAX_ANGLE_IN_WAVE_MODE], [Math.atan2] and
    the conversion of the parent node from global to local coordinates. *)
Variable modelViewTransform : ModelViewTransform2.
Variable clampDragAngle : R -> R.
Variable dragBounds : Bounds2.t.
Variable lightImageHeight : R.
Variable MAX_ANGLE_IN_WAVE_MODE : R.
Variable atan2 : R -> R -> R.
Variable globalToLocalPoint : Vector2.t -> Vector2.t.

(** The bounds the emission point is tested against. *)
Definition laserDragBoundsInModelValues : Bounds2.t :=
  let laserNodeDragBounds :=
    Bounds2.erodedXY dragBounds (lightImageHeight / 2) (lightImageHeight / 2) in
  viewToModelBounds modelViewTransform laserNodeDragBounds.

(** The angle the handler passes to its first [laser.setAngle]. *)
Definition laserAngleAfterClamp (pointerPoint : Vector2.t) (l : L) : R :=
  let localLaserPosition := globalToLocalPoint pointerPoint in
  let angle :=
    atan2 (viewToModelY modelViewTransform (Vector2.y localLaserPosition)
             - Vector2.y (pivot l))
          (viewToModelX modelViewTransform (Vector2.x localLaserPosition)
             - Vector2.x (pivot l)) in
  let laserAngleAfterClamp := clampDragAngle angle in
  (* prevent laser from going to 90 degrees when in wave mode, should go
     until laser bumps into edge. *)
  let pastMaxAngle := Num.gtb laserAngleAfterClamp MAX_ANGLE_IN_WAVE_MODE in
  if wave l && pastMaxAngle && topLeftQuadrant l
  then MAX_ANGLE_IN_WAVE_MODE
  else laserAngleAfterClamp.

(** The [drag] callback of the handler on the rotation target. *)
Definition drag (pointerPoint : Vector2.t) (node : t L) : t L :=
  let laserAnglebeforeRotate := getAngle (laser node) in
  let rotated :=
    setAngle (laserAngleAfterClamp pointerPoint (laser node)) (laser node) in
  let final :=
    if negb (Bounds2.containsPoint laserDragBoundsInModelValues
               (emissionPoint rotated))
    then setAngle laserAnglebeforeRotate rotated
    else rotated in
  mk final true false.

End RotationTarget.

(** A laser that keeps its pivot, its distance from the pivot and its angle;
    the emission point is the polar point at that distance and angle from the
    pivot. *)
Record PolarLaser : Type := mkPolar {
  polarPivot : Vector2.t;
  polarDistance : R;
  polarAngle : R;
  polarWave : bool;
  polarTopLeftQuadrant : bool
}.

#[global] Instance PolarLaser_Laser : Laser PolarLaser := {
  getAngle := polarAngle;
  setAngle := fun a l =>
    mkPolar (polarPivot l) (polarDistance l) a (polarWave l)
            (polarTopLeftQuadrant l);
  emissionPoint := fun l =>
    Vector2.plus (Vector2.timesScalar (Vector2.unitPolar (polarAngle l))
                                      (polarDistance l))
                 (polarPivot l);
  pivot := polarPivot;
  wave := polarWave;
  topLeftQuadrant := polarTopLeftQuadrant
}.

End LaserNode.

(** ** Sample states *)

Module Samples.
Local Open Scope R_scope.

(** A visible sensor with its body at (3, 4), probe 1 at (1, 2) and probe 2
    at (5, 6). *)
Definition sampleWaveSensor : WaveSensor.t :=
  WaveSensor.mk (Property.create true)
    (Property.create (Vector2.mk 3 4))
    (Probe.mk (Property.create (Vector2.mk 1 2)) [] 0)
    (Probe.mk (Property.create (Vector2.mk 5 6)) [] 0).

(** A node at scale 1 in the play area that shows the sample sensor. *)
Definition sampleNode : More_Tools.WaveSensorNode.t unit :=
  More_Tools.WaveSensorNode.mk sampleWaveSensor 1 1 1 true false tt None.

(** Three sampling ticks, at the times 1, 2 and 3, with a phase increment
    of 1 and a power of 1 everywhere. *)
Definition sampleTicks : list WaveSampler.Sampling :=
  [WaveSampler.mkSampling 1 1 (fun _ => 1);
   WaveSampler.mkSampling 2 1 (fun _ => 1);
   WaveSampler.mkSampling 3 1 (fun _ => 1)].

(** A ray that travels down and to the right with full power, in air: its
    unit direction is (3/5, -4/5). *)
Definition obliqueRay : SnellFresnel.Ray :=
  SnellFresnel.mkRay (Vector2.mk 0 1) (Vector2.mk (3 / 5) (- (4 / 5))) 650 1 1.

(** A horizontal interface from air (index 1) to glass (index 3/2) whose
    normal points up. *)
Definition sampleIntersection : SnellFresnel.Intersection :=
  SnellFresnel.mkIntersection (Vector2.mk 0 0) (Vector2.mk 0 1) 1 (3 / 2).

(** A laser in wave mode at angle 2, at distance 1 from a pivot at the
    origin, with the top-left-quadrant flag set. *)
Definition sampleLaser : LaserNode.PolarLaser :=
  LaserNode.mkPolar (Vector2.mk 0 0) 1 2 true true.

(** The identity transform between view and model coordinates. *)
Definition identityTransform : LaserNode.ModelViewTransform2 :=
  LaserNode.mkTransform (fun vx => vx) (fun vy => vy) (fun b => b).

End Samples.

(** ** dot/Bounds2: the closest point of a bounds to a point *)

Module Bounds2Points.
Local Open Scope R_scope.

(** [Math.max( Math.min( coordinate, max ), min )] *)
Definition constrain (coordinate lo hi : R) : R := Rmax (Rmin coordinate hi) lo.

Definition closestPointTo (b : Bounds2.t) (p : Vector2.t) : Vector2.t :=
  if Bounds2.containsCoordinates b (Vector2.x p) (Vector2.y p) then p
  else Vector2.mk
         (constrain (Vector2.x p) (Bounds2.minX b) (Bounds2.maxX b))
         (constrain (Vector2.y p) (Bounds2.minY b) (Bounds2.maxY b)).

(** [getClosestPoint( x, y )]: the coordinates are moved onto the minimum
    when below it and then onto the maximum when above it. *)
Definition getClosestPoint (b : Bounds2.t) (px py : R) : Vector2.t :=
  let rx := if Num.ltb px (Bounds2.minX b) then Bounds2.minX b else px in
  let rx := if Num.gtb rx (Bounds2.maxX b) then Bounds2.maxX b else rx in
  let ry := if Num.ltb py (Bounds2.minY b) then Bounds2.minY b else py in
  let ry := if Num.gtb ry (Bounds2.maxY b) then Bounds2.maxY b else ry in
  Vector2.mk rx ry.

(** A bounds that is not empty: its minimum is not beyond its maximum. *)
Definition isValid (b : Bounds2.t) : Prop :=
  Bounds2.minX b <= Bounds2.maxX b /\ Bounds2.minY b <= Bounds2.maxY b.

End Bounds2Points.

(** ** phetcommon/ModelViewTransform2: all the conversions the views call *)

Module ModelViewTransform.

Record t : Type := mk {
  modelToViewX : R -> R;
  modelToViewY : R -> R;
  viewToModelX : R -> R;
  viewToModelY : R -> R;
  modelToViewDeltaX : R -> R;
  modelToViewDeltaY : R -> R;
  viewToModelDeltaX : R -> R;
  viewToModelDeltaY : R -> R;
  viewToModelBounds : Bounds2.t -> Bounds2.t
}.

(** What the drag handlers rely on: moving a model coordinate by the model
    delta of a view delta moves its view coordinate by that view delta. *)
Definition deltasAgree (m : t) : Prop :=
  (forall c d : R,
     modelToViewX m (c + viewToModelDeltaX m d) = modelToViewX m c + d)%R
  /\ (forall c d : R,
        modelToViewY m (c + viewToModelDeltaY m d) = modelToViewY m c + d)%R.

(** The model delta of a sum of view deltas is the sum of their model
    deltas, and the model delta of the view delta of a model delta is that
    model delta. *)
Definition deltasLinear (m : t) : Prop :=
  (forall a b : R,
     viewToModelDeltaX m a + viewToModelDeltaX m b = viewToModelDeltaX m (a + b))%R
  /\ (forall a b : R,
        viewToModelDeltaY m a + viewToModelDeltaY m b = viewToModelDeltaY m (a + b))%R
  /\ (forall a : R, viewToModelDeltaX m (modelToViewDeltaX m a) = a)
  /\ (forall a : R, viewToModelDeltaY m (modelToViewDeltaY m a) = a).

End ModelViewTransform.

(** ** js/more-tools: the drag listeners of WaveSensorNode *)

Module WaveSensorListeners.
Import More_Tools.
Local Open Scope R_scope.

(** The model method [WaveSensor.translateBodyXY] is not among the sources;
    as the view's [dragBodyXY] says ("Drag bodyNode"), it moves the body and
    leaves the probes. *)
Definition translateBodyXY (dx dy : R) (ws : WaveSensor.t) : WaveSensor.t :=
  WaveSensor.setBodyPosition
    (Vector2.mk (Vector2.x (WaveSensor.bodyPosition ws) + dx)
                (Vector2.y (WaveSensor.bodyPosition ws) + dy)) ws.

(** What the listener of a probe acts on: the [start] point of its closure
    and the probe. *)
Record ProbeDrag : Type := mkProbeDrag {
  probeStart : Vector2.t;
  probe : Probe.t
}.

(** What the listeners of the body and of the toolbox shape act on: the
    [start] point of their closure and the node. *)
Record NodeDrag (Chart : Type) : Type := mkNodeDrag {
  start : Vector2.t;
  node : WaveSensorNode.t Chart
}.
Arguments mkNodeDrag {Chart}.
Arguments start {Chart}.
Arguments node {Chart}.

Section Listeners.
Context {Chart : Type}.

(** The transform, the value of [dragBoundsProperty] and the conversion
    [waveSensorNode.globalToParentPoint]. *)
Variable modelViewTransform : ModelViewTransform.t.
Variable dragBounds : Bounds2.t.
Variable globalToParentPoint : Vector2.t -> Vector2.t.

(** Called when dragged out of the toolbox, drags all parts together
    (including body and probes). *)
Definition dragAllXY (deltaX deltaY : R) (n : WaveSensorNode.t Chart)
  : WaveSensorNode.t Chart :=
  WaveSensorNode.withWaveSensor
    (WaveSensor.translateAllXY
       (ModelViewTransform.viewToModelDeltaX modelViewTransform deltaX)
       (ModelViewTransform.viewToModelDeltaY modelViewTransform deltaY)
       (WaveSensorNode.waveSensor n)) n.

(** Drag bodyNode. *)
Definition dragBodyXY (deltaX deltaY : R) (n : WaveSensorNode.t Chart)
  : WaveSensorNode.t Chart :=
  WaveSensorNode.withWaveSensor
    (translateBodyXY
       (ModelViewTransform.viewToModelDeltaX modelViewTransform deltaX)
       (ModelViewTransform.viewToModelDeltaY modelViewTransform deltaY)
       (WaveSensorNode.waveSensor n)) n.

(** The [start] callback of the listener of a probe. *)
Definition probeDragStart (pointerPoint : Vector2.t) (d : ProbeDrag) : ProbeDrag :=
  mkProbeDrag (globalToParentPoint pointerPoint) (probe d).

(** The [drag] callback of the listener of a probe. *)
Definition probeDrag (pointerPoint : Vector2.t) (d : ProbeDrag) : ProbeDrag :=
  (* in model co-ordinates *)
  let probeDragBounds :=
    ModelViewTransform.viewToModelBounds modelViewTransform dragBounds in
  let endPoint := globalToParentPoint pointerPoint in
  let modelX := ModelViewTransform.viewToModelDeltaX modelViewTransform
                  (Vector2.x endPoint - Vector2.x (probeStart d)) in
  let modelY := ModelViewTransform.viewToModelDeltaY modelViewTransform
                  (Vector2.y endPoint - Vector2.y (probeStart d)) in
  (* location of final center point with out constraining to bounds *)
  let centerEndLocation :=
    Vector2.mk (Vector2.x (Probe.position (probe d)) + modelX)
               (Vector2.y (Probe.position (probe d)) + modelY) in
  (* location of final center point with constraining to bounds *)
  let centerEndLocationInBounds :=
    Bounds2Points.closestPointTo probeDragBounds centerEndLocation in
  let moved :=
    Probe.translateXY
      (Vector2.x centerEndLocationInBounds - Vector2.x (Probe.position (probe d)))
      (Vector2.y centerEndLocationInBounds - Vector2.y (Probe.position (probe d)))
      (probe d) in
  (* Store the position of drag point after translating. *)
  mkProbeDrag
    (Vector2.mk
       (Vector2.x endPoint
        + ModelViewTransform.modelToViewDeltaX modelViewTransform
            (Vector2.x centerEndLocationInBounds - Vector2.x centerEndLocation))
       (Vector2.y endPoint
        + ModelViewTransform.modelToViewDeltaY modelViewTransform
            (Vector2.y centerEndLocationInBounds - Vector2.y centerEndLocation)))
    moved.

(** The [start] callback of the listener of the body. *)
Definition bodyDragStart (pointerPoint : Vector2.t) (d : NodeDrag Chart)
  : NodeDrag Chart :=
  mkNodeDrag (globalToParentPoint pointerPoint) (node d).

(** The [drag] callback of the listener of the body; here the bounds are the
    value of [dragBoundsProperty] itself, in view coordinates. *)
Definition bodyDrag (pointerPoint : Vector2.t) (d : NodeDrag Chart)
  : NodeDrag Chart :=
  let endPoint := globalToParentPoint pointerPoint in
  let body := WaveSensor.bodyPosition (WaveSensorNode.waveSensor (node d)) in
  let startPositionX :=
    ModelViewTransform.modelToViewX modelViewTransform (Vector2.x body) in
  let startPositionY :=
    ModelViewTransform.modelToViewY modelViewTransform (Vector2.y body) in
  (* location of final center point with out constraining to bounds *)
  let centerEndLocation :=
    Vector2.mk (startPositionX + Vector2.x endPoint - Vector2.x (start d))
               (startPositionY + Vector2.y endPoint - Vector2.y (start d)) in
  (* location of final center point with constraining to bounds *)
  let centerEndLocationInBounds :=
    Bounds2Points.closestPointTo dragBounds centerEndLocation in
  let moved :=
    dragBodyXY (Vector2.x centerEndLocationInBounds - startPositionX)
               (Vector2.y centerEndLocationInBounds - startPositionY)
               (node d) in
  mkNodeDrag
    (Vector2.mk
       (Vector2.x endPoint + Vector2.x centerEndLocationInBounds
        - Vector2.x centerEndLocation)
       (Vector2.y endPoint + Vector2.y centerEndLocationInBounds
        - Vector2.y centerEndLocation))
    moved.

(** The view coordinates of the body of the sensor a node shows. *)
Definition bodyViewPosition (n : WaveSensorNode.t Chart) : Vector2.t :=
  let body := WaveSensor.bodyPosition (WaveSensorNode.waveSensor n) in
  Vector2.mk (ModelViewTransform.modelToViewX modelViewTransform (Vector2.x body))
             (ModelViewTransform.modelToViewY modelViewTransform (Vector2.y body)).

(** One of the three corrections of the shape listener: all parts are moved
    by what brings [part] into the bounds. *)
Definition restrictTo (bounds : Bounds2.t) (part : WaveSensor.t -> Vector2.t)
    (ws : WaveSensor.t) : WaveSensor.t :=
  let position := Bounds2Points.closestPointTo bounds (part ws) in
  WaveSensor.translateAllXY (Vector2.x position - Vector2.x (part ws))
                            (Vector2.y position - Vector2.y (part ws)) ws.

(** The [start] callback of the listener of the toolbox shape. *)
Definition shapeDragStart (pointerPoint : Vector2.t) (d : NodeDrag Chart)
  : NodeDrag Chart :=
  let startPoint := globalToParentPoint pointerPoint in
  mkNodeDrag startPoint
    (WaveSensorNode.shapeDragStart
       (ModelViewTransform.viewToModelX modelViewTransform (Vector2.x startPoint))
       (ModelViewTransform.viewToModelY modelViewTransform (Vector2.y startPoint))
       (node d)).

(** The [drag] callback of the listener of the toolbox shape. *)
Definition shapeDrag (pointerPoint : Vector2.t) (d : NodeDrag Chart)
  : NodeDrag Chart :=
  (* in model co-ordinates *)
  let waveSensorDragBounds :=
    ModelViewTransform.viewToModelBounds modelViewTransform dragBounds in
  let endPoint := globalToParentPoint pointerPoint in
  let n := dragAllXY (Vector2.x endPoint - Vector2.x (start d))
                     (Vector2.y endPoint - Vector2.y (start d)) (node d) in
  (* restrict the body and probes to layout bounds *)
  let ws := WaveSensorNode.waveSensor n in
  let ws := restrictTo waveSensorDragBounds
              (fun w => Probe.position (WaveSensor.probe1 w)) ws in
  let ws := restrictTo waveSensorDragBounds
              (fun w => Probe.position (WaveSensor.probe2 w)) ws in
  let ws := restrictTo waveSensorDragBounds WaveSensor.bodyPosition ws in
  mkNodeDrag endPoint (WaveSensorNode.withWaveSensor ws n).

End Listeners.

(** An event at the node: the press on the toolbox shape at a point in
    model coordinates, a frame of the tween, or the end of a drag with the
    outcome of the test against the toolbox. *)
Inductive NodeEvent : Type :=
| ShapePressed (modelX modelY : R)
| TweenFrame (px py scale : R)
| DragEnded (insideContainer : bool).

Definition handle {Chart : Type} `{ChartNode Chart}
    (e : NodeEvent) (n : WaveSensorNode.t Chart) : WaveSensorNode.t Chart :=
  match e with
  | ShapePressed modelX modelY => WaveSensorNode.shapeDragStart modelX modelY n
  | TweenFrame px py scale => WaveSensorNode.tweenUpdate px py scale n
  | DragEnded insideContainer => WaveSensorNode.dragEnd insideContainer n
  end.

(** The node after a sequence of events, the first event first. *)
Definition handleAll {Chart : Type} `{ChartNode Chart}
    (events : list NodeEvent) (n : WaveSensorNode.t Chart)
  : WaveSensorNode.t Chart :=
  fold_left (fun n' e => handle e n') events n.

(** The node is a child of exactly one of the two layers, and the sensor is
    visible exactly when that layer is the play area. *)
Definition placed {Chart : Type} (n : WaveSensorNode.t Chart) : Prop :=
  WaveSensorNode.inBeforeLightLayer2 n = negb (WaveSensorNode.inAfterLightLayer2 n)
  /\ WaveSensorNode.sensorVisible n = WaveSensorNode.inAfterLightLayer2 n.

(** The frames of a tween, each an [x], a [y] and a scale, run in order. *)
Definition tweenFrames {Chart : Type} (frames : list (R * R * R))
    (n : WaveSensorNode.t Chart) : WaveSensorNode.t Chart :=
  fold_left
    (fun n' f => WaveSensorNode.tweenUpdate (fst (fst f)) (snd (fst f)) (snd f) n')
    frames n.

(** The positions of the three parts of the sensor: body, probe 1, probe 2. *)
Definition layout (ws : WaveSensor.t) : Vector2.t * Vector2.t * Vector2.t :=
  (WaveSensor.bodyPosition ws,
   Probe.position (WaveSensor.probe1 ws),
   Probe.position (WaveSensor.probe2 ws)).

(** The body and both probes of the node have one scale. *)
Definition uniformScale {Chart : Type} (n : WaveSensorNode.t Chart) : Prop :=
  WaveSensorNode.probe1NodeScale n = WaveSensorNode.bodyNodeScale n
  /\ WaveSensorNode.probe2NodeScale n = WaveSensorNode.bodyNodeScale n.

(** Where a drag of a probe would take it if there were no bounds. *)
Definition probeTarget (modelViewTransform : ModelViewTransform.t)
    (globalToParentPoint : Vector2.t -> Vector2.t)
    (pointerPoint : Vector2.t) (d : ProbeDrag) : Vector2.t :=
  Vector2.mk
    (Vector2.x (Probe.position (probe d))
     + ModelViewTransform.viewToModelDeltaX modelViewTransform
         (Vector2.x (globalToParentPoint pointerPoint) - Vector2.x (probeStart d)))
    (Vector2.y (Probe.position (probe d))
     + ModelViewTransform.viewToModelDeltaY modelViewTransform
         (Vector2.y (globalToParentPoint pointerPoint) - Vector2.y (probeStart d))).

(** The offsets of the two probes from the body. *)
Definition offsets (ws : WaveSensor.t) : Vector2.t * Vector2.t :=
  (Vector2.minus (Probe.position (WaveSensor.probe1 ws)) (WaveSensor.bodyPosition ws),
   Vector2.minus (Probe.position (WaveSensor.probe2 ws)) (WaveSensor.bodyPosition ws)).

End WaveSensorListeners.

(** ** js/common: the other listeners of LaserNode *)

Module LaserNodeListeners.
Local Open Scope R_scope.

(** [laser.translate( dx, dy )]: the laser model is not among the sources,
    so the operation is one more member of its interface. *)
Class Translatable (L : Type) : Type := {
  translate : R -> R -> L -> L
}.

(** What the translation listener and the bounds listener act on: the
    [start] point of the closure, the laser and the property that shows the
    translation drag handles. *)
Record TranslationState (L : Type) : Type := mkTranslationState {
  start : Vector2.t;
  laser : L;
  showTranslationDragHandles : bool
}.
Arguments mkTranslationState {L}.
Arguments start {L}.
Arguments laser {L}.
Arguments showTranslationDragHandles {L}.

Section TranslationTarget.
Context {L : Type} `{LaserNode.Laser L} `{Translatable L}.

(** The transform, the value of [dragBoundsProperty], the height of the
    laser image, the conversion [globalToParentPoint] and the occlusion
    handler passed to the constructor. *)
Variable modelViewTransform : ModelViewTransform.t.
Variable dragBounds : Bounds2.t.
Variable lightImageHeight : R.
Variable globalToParentPoint : Vector2.t -> Vector2.t.
Variable occlusionHandler : L -> L.

(** The eroded drag bounds in model coordinates. *)
Definition laserDragBoundsInModelValues : Bounds2.t :=
  let laserNodeDragBounds :=
    Bounds2.erodedXY dragBounds (lightImageHeight / 2) (lightImageHeight / 2) in
  ModelViewTransform.viewToModelBounds modelViewTransform laserNodeDragBounds.

(** When the window reshapes, make sure the laser remains in the play
    area: the listener of [dragBoundsProperty]. *)
Definition dragBoundsChanged (l : L) : L :=
  let center := LaserNode.emissionPoint l in
  let newEmissionPoint :=
    Bounds2Points.getClosestPoint laserDragBoundsInModelValues
      (Vector2.x center) (Vector2.y center) in
  let delta := Vector2.minus newEmissionPoint (LaserNode.emissionPoint l) in
  translate (Vector2.x delta) (Vector2.y delta) l.

(** The [start] callback of the listener on the translation target. *)
Definition dragStart (pointerPoint : Vector2.t) (d : TranslationState L)
  : TranslationState L :=
  mkTranslationState (globalToParentPoint pointerPoint) (laser d) true.

(** The [drag] callback of the listener on the translation target. *)
Definition drag (pointerPoint : Vector2.t) (d : TranslationState L)
  : TranslationState L :=
  let endDrag := globalToParentPoint pointerPoint in
  let deltaX := ModelViewTransform.viewToModelDeltaX modelViewTransform
                  (Vector2.x endDrag - Vector2.x (start d)) in
  let deltaY := ModelViewTransform.viewToModelDeltaY modelViewTransform
                  (Vector2.y endDrag - Vector2.y (start d)) in
  let emission := LaserNode.emissionPoint (laser d) in
  (* position of final emission point with out constraining to bounds *)
  let emissionPointEndPosition :=
    Vector2.mk (Vector2.x emission + deltaX) (Vector2.y emission + deltaY) in
  (* position of final emission point with constraining to bounds *)
  let emissionPointEndPositionInBounds :=
    Bounds2Points.closestPointTo laserDragBoundsInModelValues
      emissionPointEndPosition in
  let translateX := Vector2.x emissionPointEndPositionInBounds - Vector2.x emission in
  let translateY := Vector2.y emissionPointEndPositionInBounds - Vector2.y emission in
  let moved := translate translateX translateY (laser d) in
  (* Store the position of caught point after translating. *)
  let boundsDx := Vector2.x emissionPointEndPositionInBounds
                  - Vector2.x emissionPointEndPosition in
  let boundsDY := Vector2.y emissionPointEndPositionInBounds
                  - Vector2.y emissionPointEndPosition in
  mkTranslationState
    (Vector2.mk
       (Vector2.x endDrag
        + ModelViewTransform.modelToViewDeltaX modelViewTransform boundsDx)
       (Vector2.y endDrag
        + ModelViewTransform.modelToViewDeltaY modelViewTransform boundsDY))
    moved true.

(** Where a translation drag would take the emission point if there were no
    bounds. *)
Definition dragTarget (pointerPoint : Vector2.t) (d : TranslationState L)
  : Vector2.t :=
  Vector2.mk
    (Vector2.x (LaserNode.emissionPoint (laser d))
     + ModelViewTransform.viewToModelDeltaX modelViewTransform
         (Vector2.x (globalToParentPoint pointerPoint) - Vector2.x (start d)))
    (Vector2.y (LaserNode.emissionPoint (laser d))
     + ModelViewTransform.viewToModelDeltaY modelViewTransform
         (Vector2.y (globalToParentPoint pointerPoint) - Vector2.y (start d))).

(** The [end] callback of the listener on the translation target. *)
Definition dragEnd (d : TranslationState L) : TranslationState L :=
  mkTranslationState (start d) (occlusionHandler (laser d)) false.

(** What the handlers assume of [laser.translate]: it moves the emission
    point by the given amounts. *)
Definition translateMovesEmissionPoint : Prop :=
  forall (dx dy : R) (l : L),
    LaserNode.emissionPoint (translate dx dy l)
      = Vector2.mk (Vector2.x (LaserNode.emissionPoint l) + dx)
                   (Vector2.y (LaserNode.emissionPoint l) + dy).

End TranslationTarget.

End LaserNodeListeners.

(** ** js/common: the drag handles of LaserNode *)

Module LaserNodeHandles.

(** The count of pointers over or dragging the rotation target, and the two
    properties that show the drag handles. *)
Record Handles : Type := mkHandles {
  overCount : Z;
  showRotationDragHandles : bool;
  showTranslationDragHandles : bool
}.

(** A new value of [overCountProperty] with its linked listener, which shows
    the rotation drag handles when the count is more than zero. *)
Definition setOverCount (count : Z) (h : Handles) : Handles :=
  mkHandles count (0 <? count)%Z (showTranslationDragHandles h).

Definition setShowTranslation (v : bool) (h : Handles) : Handles :=
  mkHandles (overCount h) (showRotationDragHandles h) v.

(** The callbacks of the four listeners, as far as they act on the handles. *)
Inductive PointerEvent : Type :=
| TranslationStart
| TranslationDrag
| TranslationEnd
| TranslationEnter
| TranslationExit
| RotationStart
| RotationDrag
| RotationEnd
| RotationEnter
| RotationExit.

Definition onPointerEvent (e : PointerEvent) (h : Handles) : Handles :=
  match e with
  | TranslationStart => setShowTranslation true h
  | TranslationDrag => setShowTranslation true h
  | TranslationEnd => setShowTranslation false h
  | TranslationEnter =>
      setShowTranslation (negb (showRotationDragHandles h)) h
  | TranslationExit => setShowTranslation false h
  | RotationStart =>
      let h := setShowTranslation false h in
      setOverCount (overCount h + 1) h
  | RotationDrag =>
      mkHandles (overCount h) true false
  | RotationEnd => setOverCount (overCount h - 1) h
  | RotationEnter => setOverCount (overCount h + 1) h
  | RotationExit => setOverCount (overCount h - 1) h
  end.

(** The handles after a sequence of events, the first event first. *)
Definition onPointerEvents (events : list PointerEvent) (h : Handles) : Handles :=
  fold_left (fun h' e => onPointerEvent e h') events h.

(** The rotation drag handles show exactly when the count is more than
    zero. *)
Definition linked (h : Handles) : Prop :=
  showRotationDragHandles h = (0 <? overCount h)%Z.

(** The number of pointers a sequence of events leaves over or dragging the
    rotation target, given the number before it. *)
Fixpoint countAfter (events : list PointerEvent) (count : Z) : Z :=
  match events with
  | [] => count
  | (RotationStart | RotationEnter) :: rest => countAfter rest (count + 1)
  | (RotationEnd | RotationExit) :: rest => countAfter rest (count - 1)
  | _ :: rest => countAfter rest count
  end.

(** Every rotation drag of the sequence happens while the count is more
    than zero. *)
Fixpoint dragsWhileOver (events : list PointerEvent) (count : Z) : Prop :=
  match events with
  | [] => True
  | RotationDrag :: rest => (0 < count)%Z /\ dragsWhileOver rest count
  | e :: rest => dragsWhileOver rest (countAfter [e] count)
  end.

End LaserNodeHandles.

(** ** js/common: ToolIconListener *)

Module ToolIconListener.

Section Listener.
(** The event, the trail and what the callbacks of the components act on. *)
Variables Event Trail World : Type.

(** A component: a MovableDragHandler with its three forwarding methods. *)
Record Component : Type := mkComponent {
  handleForwardedStartEvent : Event -> Trail -> World -> World;
  handleForwardedDragEvent : Event -> Trail -> World -> World;
  handleForwardedEndEvent : Event -> Trail -> World -> World
}.

Variable components : list Component.
Variable init : Event -> World -> World.

(** The loop [for ( let i = 0; i < components.length; i++ )] with the body
    [method( components[ i ] )]: [turns] bounds the turns that are left. *)
Fixpoint forEachFrom (method : Component -> World -> World) (turns i : nat)
    (w : World) : World :=
  match turns with
  | O => w
  | S turns' =>
      if (i <? length components)%nat then
        match nth_error components i with
        | Some c => forEachFrom method turns' (S i) (method c w)
        | None => w
        end
      else w
  end.

Definition forEach (method : Component -> World -> World) (w : World) : World :=
  forEachFrom method (length components) 0 w.

Definition start (event : Event) (trail : Trail) (w : World) : World :=
  let w := init event w in
  (* Forward the event to the components *)
  forEach (fun c => handleForwardedStartEvent c event trail) w.

Definition drag (event : Event) (trail : Trail) (w : World) : World :=
  (* Forward the event to the components *)
  forEach (fun c => handleForwardedDragEvent c event trail) w.

(** The [end] callback ([end] is a keyword here). *)
Definition finish (event : Event) (trail : Trail) (w : World) : World :=
  (* Forward the event to the components *)
  forEach (fun c => handleForwardedEndEvent c event trail) w.

End Listener.

Arguments mkComponent {Event Trail World}.
Arguments handleForwardedStartEvent {Event Trail World}.
Arguments handleForwardedDragEvent {Event Trail World}.
Arguments handleForwardedEndEvent {Event Trail World}.
Arguments forEachFrom {Event Trail World}.
Arguments forEach {Event Trail World}.
Arguments start {Event Trail World}.
Arguments drag {Event Trail World}.
Arguments finish {Event Trail World}.

End ToolIconListener.

(** ** WaveParticle *)

Module WaveParticle.
Local Open Scope R_scope.

(** The vectors particles point to: a particle keeps the position object it
    was constructed with and writes to it in place, so positions live in a
    store and a particle holds a reference. *)
Definition Ref : Type := nat.
Definition Store : Type := Ref -> Vector2.t.

Definition write (r : Ref) (v : Vector2.t) (s : Store) : Store :=
  fun r' => if Nat.eqb r' r then v else s r'.

Record t : Type := mk {
  position : Ref;
  width : R;
  color : string;
  angle : R
}.

(** [new WaveParticle( position, width, color, angle )] *)
Definition create (position : Ref) (width : R) (color : string) (angle : R) : t :=
  mk position width color angle.

(** get particle x position *)
Definition getX (p : t) (s : Store) : R := Vector2.x (s (position p)).

(** get particle Y position *)
Definition getY (p : t) (s : Store) : R := Vector2.y (s (position p)).

(** Set the particle x position *)
Definition setX (p : t) (x : R) (s : Store) : Store :=
  write (position p) (Vector2.mk x (Vector2.y (s (position p)))) s.

Definition setY (p : t) (y : R) (s : Store) : Store :=
  write (position p) (Vector2.mk (Vector2.x (s (position p))) y) s.

End WaveParticle.

(** ** More sample states *)

Module MoreSamples.
Local Open Scope R_scope.

(** The identity transform with all its conversions. *)
Definition identityTransform : ModelViewTransform.t :=
  ModelViewTransform.mk (fun c => c) (fun c => c) (fun c => c) (fun c => c)
    (fun d => d) (fun d => d) (fun d => d) (fun d => d) (fun b => b).

(** Bounds of twenty by twenty around the origin. *)
Definition sampleBounds : Bounds2.t := Bounds2.mk (-10) (-10) 10 10.

(** A laser that keeps its emission point and is moved by adding to it. *)
Record PointLaser : Type := mkPointLaser {
  pointEmission : Vector2.t;
  pointAngle : R
}.

#[global] Instance PointLaser_Laser : LaserNode.Laser PointLaser := {
  getAngle := pointAngle;
  setAngle := fun a l => mkPointLaser (pointEmission l) a;
  emissionPoint := pointEmission;
  pivot := pointEmission;
  wave := fun _ => false;
  topLeftQuadrant := fun _ => false
}.

#[global] Instance PointLaser_Translatable
  : LaserNodeListeners.Translatable PointLaser := {
  translate := fun dx dy l =>
    mkPointLaser (Vector2.mk (Vector2.x (pointEmission l) + dx)
                             (Vector2.y (pointEmission l) + dy))
                 (pointAngle l)
}.

(** A laser whose emission point, at (20, 0), is outside the sample bounds. *)
Definition outsideLaser : PointLaser := mkPointLaser (Vector2.mk 20 0) 0.

(** A chart with no state. *)
#[global] Instance unitChart : ChartNode unit := {
  chartStep := fun _ c => c;
  gridLinesClear := fun c => c
}.

(** The sample node in the toolbox, with its sensor hidden. *)
Definition toolboxNode : More_Tools.WaveSensorNode.t unit :=
  More_Tools.WaveSensorNode.mk
    (WaveSensor.setVisible false Samples.sampleWaveSensor)
    0.33 0.33 0.33 false true tt None.

End MoreSamples.

(* ================================================================== *)
(** * Part 2: theorems *)
(* ================================================================== *)

(** ** Comparisons *)

Lemma ltb_false_iff (a b : R) : Num.ltb a b = false <-> (b <= a)%R.
Proof.
  unfold Num.ltb. destruct (Rlt_dec a b) as [Hlt | Hge]; split; intro Hx;
    try reflexivity; try discriminate; lra.
Qed.

Lemma gtb_false_iff (a b : R) : Num.gtb a b = false <-> (a <= b)%R.
Proof. unfold Num.gtb. apply ltb_false_iff. Qed.

(** ** ExpandableProtractorNode *)

Section ProtractorFacts.
Import More_Tools.ExpandableProtractorNode.
Context {Node : Type} `{ProtractorNode Node}.
Local Open Scope R_scope.

(** C9: the [setExpanded] of js/more-tools and the [setExpanded] of
    js/moretools are extensionally equal: for every boolean and every node
    both set the protractor scale to 0.8 when [expanded] is true and to 0.4
    when it is false. *)
Theorem setExpanded_versions_agree (expanded : bool) (node : Node) :
  More_Tools.ExpandableProtractorNode.setExpanded expanded node
    = Moretools.ExpandableProtractorNode.setExpanded expanded node
  /\ More_Tools.ExpandableProtractorNode.setExpanded true node
       = setProtractorScale 0.8 node
  /\ Moretools.ExpandableProtractorNode.setExpanded true node
       = setProtractorScale 0.8 node
  /\ More_Tools.ExpandableProtractorNode.setExpanded false node
       = setProtractorScale 0.4 node
  /\ Moretools.ExpandableProtractorNode.setExpanded false node
       = setProtractorScale 0.4 node.
Proof.
  unfold More_Tools.ExpandableProtractorNode.setExpanded,
         Moretools.ExpandableProtractorNode.setExpanded.
  destruct expanded; repeat split.
Qed.

End ProtractorFacts.

(** ** PrismBreakView *)

Section PrismBreakFacts.
Import PrismBreakView.
Local Open Scope string_scope.

Lemma stepInternal_clean (view : PrismBreakView.t) :
  dirty (prismBreakModel view) = false -> stepInternal view = view.
Proof.
  intro Hclean. unfold stepInternal. rewrite Hclean.
  rewrite andb_false_r. reflexivity.
Qed.

Lemma step_clean (events : nat) (view : PrismBreakView.t) :
  dirty (prismBreakModel view) = false -> step events view = view.
Proof.
  intro Hclean. unfold step.
  induction events as [| k IH]; simpl.
  - reflexivity.
  - rewrite IH. apply stepInternal_clean. exact Hclean.
Qed.

Lemma stepInternal_white (view : PrismBreakView.t) :
  colorMode (prismBreakModel view) = "white" ->
  stepInternal view =
    if dirty (prismBreakModel view)
    then mk (mkModel "white" false) (S (whiteLightNode view))
    else view.
Proof.
  intro Hwhite. unfold stepInternal. rewrite Hwhite. simpl.
  destruct (dirty (prismBreakModel view)); reflexivity.
Qed.

(** C7: in white-light color mode [stepInternal] runs the white light node
    exactly when the model is dirty; after the step the model is not dirty;
    any number of further steps runs the white light node no more; and once
    an input change has set the indicator again, the next step runs it
    again. *)
Theorem white_light_recomputed_only_when_dirty (view : PrismBreakView.t) :
  colorMode (prismBreakModel view) = "white" ->
  whiteLightNode (stepInternal view)
    = (if dirty (prismBreakModel view)
       then S (whiteLightNode view) else whiteLightNode view)
  /\ dirty (prismBreakModel (stepInternal view)) = false
  /\ (forall events : nat,
        step events (stepInternal view) = stepInternal view)
  /\ whiteLightNode (stepInternal (inputChanged (stepInternal view)))
       = S (whiteLightNode (stepInternal view)).
Proof.
  intro Hwhite.
  assert (Hclean : dirty (prismBreakModel (stepInternal view)) = false).
  { rewrite (stepInternal_white view Hwhite).
    destruct (dirty (prismBreakModel view)) eqn:Hd; [reflexivity | exact Hd]. }
  assert (Hmode : colorMode (prismBreakModel (stepInternal view)) = "white").
  { rewrite (stepInternal_white view Hwhite).
    destruct (dirty (prismBreakModel view)); [reflexivity | exact Hwhite]. }
  repeat split.
  - rewrite (stepInternal_white view Hwhite).
    destruct (dirty (prismBreakModel view)); reflexivity.
  - exact Hclean.
  - intro events. apply step_clean. exact Hclean.
  - rewrite (stepInternal_white (inputChanged (stepInternal view))).
    + reflexivity.
    + simpl. exact Hmode.
Qed.

(** A white-light view that is dirty and whose white light node has not run. *)
Lemma white_light_recomputed_witness :
  whiteLightNode (stepInternal (mk (mkModel "white" true) 0)) = 1%nat
  /\ dirty (prismBreakModel (stepInternal (mk (mkModel "white" true) 0))) = false
  /\ (forall events : nat,
        step events (stepInternal (mk (mkModel "white" true) 0))
          = stepInternal (mk (mkModel "white" true) 0))
  /\ whiteLightNode
       (stepInternal (inputChanged (stepInternal (mk (mkModel "white" true) 0))))
       = S (whiteLightNode (stepInternal (mk (mkModel "white" true) 0))).
Proof.
  apply (white_light_recomputed_only_when_dirty (mk (mkModel "white" true) 0)).
  reflexivity.
Defined.

End PrismBreakFacts.

(** ** The wave sample buffer *)

Section BufferFacts.
Import WaveSampler.

Lemma addSample_length (N : nat) (s : WaveSample) (buffer : list WaveSample) :
  length (addSample N s buffer) = Nat.min (S (length buffer)) N.
Proof.
  unfold addSample. rewrite length_skipn, length_app. cbn [length]. lia.
Qed.

Lemma addSample_bounded (N : nat) (s : WaveSample) (buffer : list WaveSample) :
  length (addSample N s buffer) <= N.
Proof. rewrite addSample_length. lia. Qed.

Lemma skipn_app_within {A : Type} (n : nat) (l1 l2 : list A) :
  n <= length l1 -> skipn n l1 ++ l2 = skipn n (l1 ++ l2).
Proof.
  intro Hle. rewrite skipn_app.
  replace (n - length l1) with 0 by lia. reflexivity.
Qed.

(** Appending a sample to the last [N] of a sequence and trimming again
    yields the last [N] of the longer sequence. *)
Lemma addSample_window (N : nat) (s : WaveSample) (l : list WaveSample) :
  addSample N s (skipn (length l - N) l)
    = skipn (length (l ++ [s]) - N) (l ++ [s]).
Proof.
  unfold addSample.
  rewrite length_app, length_skipn, length_app. simpl.
  rewrite (skipn_app_within (length l - N) l [s]) by lia.
  rewrite skipn_skipn. f_equal. lia.
Qed.

Lemma addSamples_window (N : nat) (arrivals l : list WaveSample) :
  addSamples N arrivals (skipn (length l - N) l)
    = skipn (length (l ++ arrivals) - N) (l ++ arrivals).
Proof.
  revert l. induction arrivals as [| s rest IH]; intro l.
  - rewrite app_nil_r. reflexivity.
  - unfold addSamples in *. simpl.
    rewrite addSample_window, IH, <- app_assoc. reflexivity.
Qed.

(** The series of a probe after a sequence of ticks is its window after the
    samples of those ticks have arrived. *)
Lemma steps_series (N : nat) (ticks : list Sampling) (p : Probe.t) :
  Probe.series (Probe.steps N ticks p)
    = addSamples N (Probe.samples N ticks p) (Probe.series p).
Proof.
  revert p. induction ticks as [| ctx rest IH]; intro p.
  - reflexivity.
  - simpl. rewrite IH. reflexivity.
Qed.

Lemma addSamples_bounded (N : nat) (arrivals buffer : list WaveSample) :
  length buffer <= N -> length (addSamples N arrivals buffer) <= N.
Proof.
  revert buffer. induction arrivals as [| s rest IH]; intros buffer Hcap.
  - exact Hcap.
  - apply IH. apply addSample_bounded.
Qed.

(** C6: the series of a probe that is within its capacity [N] stays within
    it however many simulation steps occur; after the steps it is the last
    [N] samples of what it held followed by the samples the steps recorded,
    in arrival order; and when it is full, a new sample evicts the oldest
    one. *)
Theorem wave_buffer_bounded_fifo
    (N : nat) (ticks : list Sampling) (p : Probe.t) :
  length (Probe.series p) <= N ->
  length (Probe.series (Probe.steps N ticks p)) <= N
  /\ Probe.series (Probe.steps N ticks p)
       = skipn (length (Probe.series p ++ Probe.samples N ticks p) - N)
               (Probe.series p ++ Probe.samples N ticks p)
  /\ (forall ctx : Sampling,
        length (Probe.series p) = N ->
        Probe.series (Probe.step N ctx p)
          = skipn 1 (Probe.series p ++ [Probe.sampleAt ctx p])).
Proof.
  intro Hcap. split; [| split].
  - rewrite steps_series. apply addSamples_bounded. exact Hcap.
  - rewrite steps_series, <- addSamples_window.
    replace (length (Probe.series p) - N) with 0 by lia. reflexivity.
  - intros ctx Hfull. unfold Probe.step, addSample. cbn [Probe.series].
    rewrite length_app. cbn [length].
    replace (length (Probe.series p) + 1 - N) with 1 by lia. reflexivity.
Qed.

(** The first probe of the sample sensor, with a window of capacity 2, over
    three ticks at the times 1, 2 and 3. *)
Lemma wave_buffer_bounded_fifo_witness :
  length
    (Probe.series
       (Probe.steps 2 Samples.sampleTicks
          (WaveSensor.probe1 Samples.sampleWaveSensor))) <= 2
  /\ Probe.series
       (Probe.steps 2 Samples.sampleTicks
          (WaveSensor.probe1 Samples.sampleWaveSensor))
       = skipn 1 (Probe.samples 2 Samples.sampleTicks
                    (WaveSensor.probe1 Samples.sampleWaveSensor))
  /\ (forall ctx : Sampling,
        0 = 2 ->
        Probe.series (Probe.step 2 ctx (WaveSensor.probe1 Samples.sampleWaveSensor))
          = skipn 1 ([] ++ [Probe.sampleAt ctx
                              (WaveSensor.probe1 Samples.sampleWaveSensor)])).
Proof.
  apply (wave_buffer_bounded_fifo 2 Samples.sampleTicks
           (WaveSensor.probe1 Samples.sampleWaveSensor)).
  simpl. lia.
Defined.

End BufferFacts.

(** ** WaveSensorNode *)

Section WaveSensorNodeFacts.
Import More_Tools.
Context {Chart : Type} `{ChartNode Chart}.
Local Open Scope R_scope.

Lemma vector_eq (ax ay bx by' : R) :
  ax = bx -> ay = by' -> Vector2.mk ax ay = Vector2.mk bx by'.
Proof. intros Hx Hy. rewrite Hx, Hy. reflexivity. Qed.

(** Rescaling and repositioning touch neither the recorded series nor the
    visibility of the sensor. *)
Lemma setWaveSensorNodeScale_keeps_samples
    (px py scale : R) (node : WaveSensorNode.t Chart) :
  WaveSensorNode.recordedSeries
    (WaveSensorNode.setWaveSensorNodeScale px py scale node)
    = WaveSensorNode.recordedSeries node
  /\ WaveSensorNode.sensorVisible
       (WaveSensorNode.setWaveSensorNodeScale px py scale node)
     = WaveSensorNode.sensorVisible node.
Proof. split; reflexivity. Qed.


End WaveSensorNodeFacts.


(** ** MoreToolsView and the wave sensor *)

Section WaveRecordingFacts.
Import More_Tools.
Context {Chart Intro : Type} `{ChartNode Chart} `{IntroView Intro}.
Local Open Scope R_scope.

Lemma reset_waveSensor (node : WaveSensorNode.t Chart) :
  WaveSensorNode.waveSensor (WaveSensorNode.reset node)
    = WaveSensor.reset (WaveSensorNode.waveSensor node).
Proof.
  unfold WaveSensorNode.reset.
  destruct (WaveSensorNode.inAfterLightLayer2
              (WaveSensorNode.withChartNode _ _)); reflexivity.
Qed.

Lemma reset_clears_series (node : WaveSensorNode.t Chart) :
  WaveSensorNode.recordedSeries (WaveSensorNode.reset node) = ([], []).
Proof.
  unfold WaveSensorNode.recordedSeries, WaveSensorNode.reset.
  destruct (WaveSensorNode.inAfterLightLayer2
              (WaveSensorNode.withChartNode _ _)); reflexivity.
Qed.

Lemma dragEnd_clears_series (node : WaveSensorNode.t Chart) :
  WaveSensorNode.recordedSeries (WaveSensorNode.dragEnd true node) = ([], [])
  /\ WaveSensorNode.sensorVisible (WaveSensorNode.dragEnd true node) = false.
Proof.
  unfold WaveSensorNode.dragEnd.
  set (started := WaveSensorNode.setWaveSensorNodeScaleAnimation _ _ _ node).
  pose proof (reset_clears_series started) as Hreset.
  unfold WaveSensorNode.recordedSeries in *. split.
  - exact Hreset.
  - reflexivity.
Qed.

(** C5: a step of either version of the view advances the wave sensor, and
    with it the recorded series, exactly when the sensor is visible, and
    leaves the sensor as it is otherwise; a visible step appends one sample
    to the window of each probe; resetting the node resets the wave sensor,
    and resetting the node or either view empties both series; dropping the
    node into the toolbox resets the wave sensor and then sets its visibility
    to false, so both series are empty and the sensor is not visible, and the
    frames of the tween that follow keep it so. *)
Theorem wave_samples_only_while_visible
    (view : Moretools.MoreToolsView.t Chart)
    (view' : More_Tools.MoreToolsView.t Chart Intro)
    (node : WaveSensorNode.t Chart) (px py scale : R) :
  (let n := Moretools.MoreToolsView.waveSensorNode view in
   let m := Moretools.MoreToolsView.moreToolsModel view in
   WaveSensorNode.waveSensor
     (Moretools.MoreToolsView.waveSensorNode
        (Moretools.MoreToolsView.stepInternal view))
   = if WaveSensorNode.sensorVisible n
     then WaveSensor.step (MoreToolsView.capacity m) (MoreToolsView.sampling m)
            (WaveSensorNode.waveSensor n)
     else WaveSensorNode.waveSensor n)
  /\ (let n := MoreToolsView.waveSensorNode view' in
      let m := MoreToolsView.moreToolsModel view' in
      WaveSensorNode.waveSensor
        (MoreToolsView.waveSensorNode (MoreToolsView.updateWaveShape view'))
      = if WaveSensorNode.sensorVisible n
        then WaveSensor.step (MoreToolsView.capacity m) (MoreToolsView.sampling m)
               (WaveSensorNode.waveSensor n)
        else WaveSensorNode.waveSensor n)
  /\ (forall (N : nat) (ctx : WaveSampler.Sampling) (ws : WaveSensor.t),
        Probe.series (WaveSensor.probe1 (WaveSensor.step N ctx ws))
          = WaveSampler.addSample N (Probe.sampleAt ctx (WaveSensor.probe1 ws))
              (Probe.series (WaveSensor.probe1 ws))
        /\ Probe.series (WaveSensor.probe2 (WaveSensor.step N ctx ws))
             = WaveSampler.addSample N (Probe.sampleAt ctx (WaveSensor.probe2 ws))
                 (Probe.series (WaveSensor.probe2 ws)))
  /\ WaveSensorNode.waveSensor (WaveSensorNode.reset node)
       = WaveSensor.reset (WaveSensorNode.waveSensor node)
  /\ WaveSensorNode.waveSensor (WaveSensorNode.dragEnd true node)
       = WaveSensor.setVisible false
           (WaveSensor.reset (WaveSensorNode.waveSensor node))
  /\ WaveSensorNode.recordedSeries (WaveSensorNode.reset node) = ([], [])
  /\ WaveSensorNode.recordedSeries
       (Moretools.MoreToolsView.waveSensorNode
          (Moretools.MoreToolsView.reset view)) = ([], [])
  /\ WaveSensorNode.recordedSeries
       (MoreToolsView.waveSensorNode (MoreToolsView.reset view')) = ([], [])
  /\ WaveSensorNode.recordedSeries (WaveSensorNode.dragEnd true node) = ([], [])
  /\ WaveSensorNode.sensorVisible (WaveSensorNode.dragEnd true node) = false
  /\ WaveSensorNode.recordedSeries
       (WaveSensorNode.tweenUpdate px py scale
          (WaveSensorNode.dragEnd true node)) = ([], [])
  /\ WaveSensorNode.sensorVisible
       (WaveSensorNode.tweenUpdate px py scale
          (WaveSensorNode.dragEnd true node)) = false.
Proof.
  destruct (dragEnd_clears_series node) as [Hdrop Hhidden].
  repeat match goal with |- _ /\ _ => split end.
  - unfold Moretools.MoreToolsView.stepInternal, WaveSensorNode.sensorVisible.
    destruct (Property.get _); reflexivity.
  - unfold MoreToolsView.updateWaveShape, WaveSensorNode.sensorVisible.
    destruct (Property.get _); reflexivity.
  - intros N ctx ws. split; reflexivity.
  - apply reset_waveSensor.
  - unfold WaveSensorNode.dragEnd.
    set (started := WaveSensorNode.setWaveSensorNodeScaleAnimation _ _ _ node).
    replace (WaveSensorNode.waveSensor node)
      with (WaveSensorNode.waveSensor started) by reflexivity.
    rewrite <- (reset_waveSensor started). reflexivity.
  - apply reset_clears_series.
  - apply reset_clears_series.
  - apply reset_clears_series.
  - exact Hdrop.
  - exact Hhidden.
  - unfold WaveSensorNode.tweenUpdate.
    rewrite (proj1 (setWaveSensorNodeScale_keeps_samples px py scale _)).
    exact Hdrop.
  - unfold WaveSensorNode.tweenUpdate.
    rewrite (proj2 (setWaveSensorNodeScale_keeps_samples px py scale _)).
    exact Hhidden.
Qed.

End WaveRecordingFacts.

(** ** LaserNode: the rotation drag *)

Section LaserRotationFacts.
Import LaserNode.
Context {L : Type} `{Laser L}.
Variable modelViewTransform : ModelViewTransform2.
Variable clampDragAngle : R -> R.
Variable dragBounds : Bounds2.t.
Variable lightImageHeight : R.
Variable MAX_ANGLE_IN_WAVE_MODE : R.
Variable atan2 : R -> R -> R.
Variable globalToLocalPoint : Vector2.t -> Vector2.t.
Local Open Scope R_scope.

(** The handler ends in one of two states: the rotated laser, whose emission
    point passed the bounds test, or the rotated laser set back to the angle
    read before the rotation. *)
Lemma drag_outcome (pointerPoint : Vector2.t) (node : LaserNode.t L) :
  let bounds :=
    laserDragBoundsInModelValues modelViewTransform dragBounds lightImageHeight in
  let applied :=
    laserAngleAfterClamp modelViewTransform clampDragAngle
      MAX_ANGLE_IN_WAVE_MODE atan2 globalToLocalPoint pointerPoint (laser node) in
  let rotated := setAngle applied (laser node) in
  let node' :=
    drag modelViewTransform clampDragAngle dragBounds lightImageHeight
      MAX_ANGLE_IN_WAVE_MODE atan2 globalToLocalPoint pointerPoint node in
  (Bounds2.containsPoint bounds (emissionPoint rotated) = true
   /\ laser node' = rotated)
  \/ (Bounds2.containsPoint bounds (emissionPoint rotated) = false
      /\ laser node' = setAngle (getAngle (laser node)) rotated).
Proof.
  intros bounds applied rotated node'. subst node'. unfold drag.
  fold applied. fold rotated. fold bounds.
  destruct (Bounds2.containsPoint bounds (emissionPoint rotated)) eqn:Hin; simpl.
  - left. split; reflexivity.
  - right. split; reflexivity.
Qed.

(** C10: if setting the laser to an angle read from it makes it report that
    angle, then after a rotation drag either the emission point lies within
    the eroded drag bounds in model coordinates or the angle of the laser is
    the one it had before the drag; and in wave mode with the
    top-left-quadrant flag set, the angle the handler applies is at most
    [MAX_ANGLE_IN_WAVE_MODE]. *)
Theorem rotation_drag_in_bounds_or_restored
    (pointerPoint : Vector2.t) (node : LaserNode.t L) :
  (forall (l : L) (a : R),
     getAngle (setAngle (getAngle l) (setAngle a l)) = getAngle l) ->
  let bounds :=
    laserDragBoundsInModelValues modelViewTransform dragBounds lightImageHeight in
  let applied :=
    laserAngleAfterClamp modelViewTransform clampDragAngle
      MAX_ANGLE_IN_WAVE_MODE atan2 globalToLocalPoint pointerPoint (laser node) in
  let node' :=
    drag modelViewTransform clampDragAngle dragBounds lightImageHeight
      MAX_ANGLE_IN_WAVE_MODE atan2 globalToLocalPoint pointerPoint node in
  (Bounds2.containsPoint bounds (emissionPoint (laser node')) = true
   \/ getAngle (laser node') = getAngle (laser node))
  /\ (wave (laser node) = true -> topLeftQuadrant (laser node) = true ->
      applied <= MAX_ANGLE_IN_WAVE_MODE).
Proof.
  intros Hrestore bounds applied node'. split.
  - destruct (drag_outcome pointerPoint node) as [[Hin Heq] | [Hout Heq]];
      fold node' in Heq; rewrite Heq.
    + left. exact Hin.
    + right. apply Hrestore.
  - intros Hwave Hquadrant. subst applied. unfold laserAngleAfterClamp.
    rewrite Hwave, Hquadrant. simpl. rewrite andb_true_r.
    destruct (Num.gtb _ MAX_ANGLE_IN_WAVE_MODE) eqn:Hpast.
    + lra.
    + apply gtb_false_iff. exact Hpast.
Qed.

End LaserRotationFacts.

(** The sample laser, which stores its angle, dragged with the pointer at
    (5, 5) inside drag bounds of twenty by twenty around the origin, where
    the angle of the pointer is 4 and the maximum angle in wave mode is 3. *)
Lemma rotation_drag_witness :
  let node := LaserNode.mk Samples.sampleLaser false false in
  let bounds :=
    LaserNode.laserDragBoundsInModelValues Samples.identityTransform
      (Bounds2.mk (-10) (-10) 10 10) 0 in
  let applied :=
    LaserNode.laserAngleAfterClamp Samples.identityTransform (fun a => a)
      3 (fun _ _ => 4%R) (fun p => p) (Vector2.mk 5 5) Samples.sampleLaser in
  let node' :=
    LaserNode.drag Samples.identityTransform (fun a => a)
      (Bounds2.mk (-10) (-10) 10 10) 0 3 (fun _ _ => 4%R) (fun p => p)
      (Vector2.mk 5 5) node in
  (Bounds2.containsPoint bounds
     (LaserNode.emissionPoint (LaserNode.laser node')) = true
   \/ LaserNode.getAngle (LaserNode.laser node') = 2%R)
  /\ (true = true -> true = true -> (applied <= 3)%R).
Proof.
  exact (rotation_drag_in_bounds_or_restored Samples.identityTransform
           (fun a => a) (Bounds2.mk (-10) (-10) 10 10) 0 3 (fun _ _ => 4%R)
           (fun p => p) (Vector2.mk 5 5)
           (LaserNode.mk Samples.sampleLaser false false)
           (fun l a => eq_refl)).
Defined.

(** ** The Snell / Fresnel solver *)

Section SolverFacts.
Import SnellFresnel.
Context `{Fresnel}.
Local Open Scope R_scope.

(** The dot product of two unit vectors lies between -1 and 1. *)
Lemma unit_dot_bound (d n : Vector2.t) :
  Vector2.dot d d = 1 -> Vector2.dot n n = 1 -> -1 <= Vector2.dot d n <= 1.
Proof.
  destruct d as [dx dy], n as [nx ny]. unfold Vector2.dot. simpl.
  intros Hd Hn.
  pose proof (Rle_0_sqr (dx - nx)) as H1. pose proof (Rle_0_sqr (dy - ny)) as H2.
  pose proof (Rle_0_sqr (dx + nx)) as H3. pose proof (Rle_0_sqr (dy + ny)) as H4.
  unfold Rsqr in *. split; nra.
Qed.

Lemma acos_quadrant (c : R) : 0 <= c <= 1 -> 0 <= acos c <= PI / 2.
Proof.
  intros [Hc0 Hc1]. pose proof (acos_bound c) as [Hlo Hhi].
  split; [exact Hlo |].
  assert (Hpi : 0 < PI) by apply PI_RGT_0.
  apply cos_decr_0; try lra.
  rewrite cos_PI2, cos_acos; lra.
Qed.

Lemma asin_quadrant (s : R) : 0 <= s <= 1 -> 0 <= asin s <= PI / 2.
Proof.
  intros [Hs0 Hs1]. pose proof (asin_bound s) as [Hlo Hhi].
  split; [| exact Hhi].
  assert (Hpi : 0 < PI) by apply PI_RGT_0.
  apply sin_incr_0; try lra.
  rewrite sin_0, sin_asin; lra.
Qed.

(** The incidence angle of a unit ray on a unit normal that faces it lies in
    the first quadrant. *)
Lemma incidenceAngle_quadrant (d n : Vector2.t) :
  Vector2.dot d d = 1 -> Vector2.dot n n = 1 -> Vector2.dot d n <= 0 ->
  0 <= incidenceAngle d n <= PI / 2.
Proof.
  intros Hd Hn Hface. pose proof (unit_dot_bound d n Hd Hn) as [Hlo Hhi].
  unfold incidenceAngle. apply acos_quadrant. lra.
Qed.

Lemma sin_quadrant (theta : R) : 0 <= theta <= PI / 2 -> 0 <= sin theta <= 1.
Proof.
  intros [Hlo Hhi]. assert (Hpi : 0 < PI) by apply PI_RGT_0. split.
  - apply sin_ge_0; lra.
  - apply SIN_bound.
Qed.

(** Below the critical angle the critical angle check of the solver fails
    and the sine of the incidence angle is at most [n2/n1]. *)
Lemma belowCriticalAngle_no_reflection (n1 n2 theta1 : R) :
  1 <= n1 -> 1 <= n2 -> 0 <= theta1 <= PI / 2 ->
  belowCriticalAngle n1 n2 theta1 ->
  totalInternalReflection n1 n2 theta1 = false /\ n1 * sin theta1 <= n2.
Proof.
  intros Hn1 Hn2 Htheta Hbelow.
  pose proof (sin_quadrant theta1 Htheta) as [Hs0 Hs1].
  unfold totalInternalReflection.
  destruct (Rle_dec n1 n2) as [Hle | Hgt].
  - split.
    + apply andb_false_iff. left. apply gtb_false_iff. exact Hle.
    + nra.
  - destruct Hbelow as [Hle | Hlt]; [contradiction |].
    assert (Hlt12 : n2 < n1) by lra.
    assert (Hinv : 0 < / n1) by (apply Rinv_0_lt_compat; lra).
    assert (Hone : n1 * / n1 = 1) by (apply Rinv_r; lra).
    assert (Hratio : 0 <= n2 / n1 <= 1) by (unfold Rdiv; split; nra).
    pose proof (asin_quadrant (n2 / n1) Hratio) as [Hc0 Hc1].
    unfold criticalAngle in Hlt.
    assert (Hsin : sin theta1 < n2 / n1).
    { rewrite <- (sin_asin (n2 / n1)) by lra.
      apply sin_increasing_1; lra. }
    split.
    + apply andb_false_iff. right. apply gtb_false_iff. lra.
    + unfold Rdiv in Hsin. nra.
Qed.

(** The sine of the refraction angle obeys Snell's law whenever the incident
    side cannot reflect totally. *)
Lemma refractionAngle_sin (n1 n2 theta1 : R) :
  1 <= n1 -> 1 <= n2 -> 0 <= sin theta1 -> n1 * sin theta1 <= n2 ->
  0 <= n1 / n2 * sin theta1 <= 1
  /\ n2 * sin (refractionAngle n1 n2 theta1) = n1 * sin theta1.
Proof.
  intros Hn1 Hn2 Hs0 Hle.
  assert (Hinv : 0 < / n2) by (apply Rinv_0_lt_compat; lra).
  assert (Hone : n2 * / n2 = 1) by (apply Rinv_r; lra).
  assert (Hrange : 0 <= n1 / n2 * sin theta1 <= 1).
  { unfold Rdiv. split.
    - apply Rmult_le_pos; [apply Rmult_le_pos |]; lra.
    - replace (n1 * / n2 * sin theta1) with (n1 * sin theta1 * / n2) by ring.
      nra. }
  split; [exact Hrange |].
  unfold refractionAngle. rewrite sin_asin by lra. field. lra.
Qed.

Lemma tangentAlong_orthogonal (d n : Vector2.t) :
  Vector2.dot (tangentAlong d n) n = 0.
Proof.
  unfold tangentAlong. destruct (Num.leb 0 _);
    destruct n as [nx ny]; unfold Vector2.dot; simpl; ring.
Qed.

Lemma tangentAlong_unit (d n : Vector2.t) :
  Vector2.dot (tangentAlong d n) (tangentAlong d n) = Vector2.dot n n.
Proof.
  unfold tangentAlong. destruct (Num.leb 0 _);
    destruct n as [nx ny]; unfold Vector2.dot; simpl; ring.
Qed.

(** The tangent is chosen on the side the incident ray travels to. *)
Lemma tangentAlong_side (d n : Vector2.t) :
  0 <= Vector2.dot d (tangentAlong d n).
Proof.
  unfold tangentAlong, Num.leb.
  destruct (Rle_dec 0 (Vector2.dot d (Vector2.perpendicular n))) as [Hle | Hneg].
  - exact Hle.
  - destruct d as [dx dy], n as [nx ny]. unfold Vector2.dot in *. simpl in *.
    lra.
Qed.

(** The component of a unit ray along the tangent is the sine of its
    incidence angle. *)
Lemma incident_tangential (d n : Vector2.t) :
  Vector2.dot d d = 1 -> Vector2.dot n n = 1 ->
  Vector2.dot d (tangentAlong d n) = sin (incidenceAngle d n).
Proof.
  intros Hd Hn. pose proof (unit_dot_bound d n Hd Hn) as [Hlo Hhi].
  pose proof (tangentAlong_side d n) as Hside.
  unfold incidenceAngle. rewrite sin_acos by lra.
  symmetry. apply sqrt_lem_1.
  - unfold Rsqr. nra.
  - exact Hside.
  - assert (Hsquare : Vector2.dot d (tangentAlong d n)
                      * Vector2.dot d (tangentAlong d n)
                      = Vector2.dot d d * Vector2.dot n n
                        - Vector2.dot d n * Vector2.dot d n).
    { unfold tangentAlong. destruct (Num.leb 0 _);
        destruct d as [dx dy], n as [nx ny]; unfold Vector2.dot; simpl; ring. }
    rewrite Hsquare, Hd, Hn. unfold Rsqr. ring.
Qed.

(** The refracted direction is a unit vector. *)
Lemma refractedDirection_unit (d n : Vector2.t) (theta2 : R) :
  Vector2.dot n n = 1 ->
  Vector2.dot (refractedDirection d n theta2) (refractedDirection d n theta2) = 1.
Proof.
  intro Hn.
  pose proof (tangentAlong_orthogonal d n) as Horth.
  pose proof (tangentAlong_unit d n) as Hunit. rewrite Hn in Hunit.
  pose proof (sin2_cos2 theta2) as Hone. unfold Rsqr in Hone.
  unfold refractedDirection. destruct (tangentAlong d n) as [tx ty].
  destruct n as [nx ny]. unfold Vector2.dot in *. simpl in *.
  replace ((- nx * cos theta2 + tx * sin theta2)
           * (- nx * cos theta2 + tx * sin theta2)
           + (- ny * cos theta2 + ty * sin theta2)
             * (- ny * cos theta2 + ty * sin theta2))
    with (cos theta2 * cos theta2 * (nx * nx + ny * ny)
          + sin theta2 * sin theta2 * (tx * tx + ty * ty)
          - 2 * (sin theta2 * cos theta2) * (tx * nx + ty * ny)) by ring.
  rewrite Hn, Hunit, Horth. lra.
Qed.

(** The components of the refracted direction along the far-side normal
    and along the tangent are the cosine and the sine of [theta2]. *)
Lemma refractedDirection_components (d n : Vector2.t) (theta2 : R) :
  Vector2.dot n n = 1 ->
  Vector2.dot (refractedDirection d n theta2) (Vector2.negated n) = cos theta2
  /\ Vector2.dot (refractedDirection d n theta2) (tangentAlong d n) = sin theta2.
Proof.
  intro Hn.
  pose proof (tangentAlong_orthogonal d n) as Horth.
  pose proof (tangentAlong_unit d n) as Hunit. rewrite Hn in Hunit.
  unfold refractedDirection. destruct (tangentAlong d n) as [tx ty].
  destruct n as [nx ny]. unfold Vector2.dot in *. simpl in *. split.
  - replace ((- nx * cos theta2 + tx * sin theta2) * - nx
             + (- ny * cos theta2 + ty * sin theta2) * - ny)
      with (cos theta2 * (nx * nx + ny * ny)
            - sin theta2 * (tx * nx + ty * ny)) by ring.
    rewrite Hn, Horth. ring.
  - replace ((- nx * cos theta2 + tx * sin theta2) * tx
             + (- ny * cos theta2 + ty * sin theta2) * ty)
      with (sin theta2 * (tx * tx + ty * ty)
            - cos theta2 * (tx * nx + ty * ny)) by ring.
    rewrite Hunit, Horth. ring.
Qed.

(** The refracted direction makes the angle [theta2] with the far-side
    normal. *)
Lemma refractedDirection_angle (d n : Vector2.t) (theta2 : R) :
  Vector2.dot n n = 1 -> 0 <= theta2 <= PI ->
  angleToFarNormal (refractedDirection d n theta2) n = theta2.
Proof.
  intros Hn Htheta. unfold angleToFarNormal.
  rewrite (proj1 (refractedDirection_components d n theta2 Hn)).
  rewrite (refractedDirection_unit d n theta2 Hn), Hn, sqrt_1.
  replace (cos theta2 / (1 * 1)) with (cos theta2) by field.
  apply acos_cos. exact Htheta.
Qed.

(** C1: at an interface with indices [n1 >= 1] and [n2 >= 1], for a unit ray
    that meets a unit normal facing it at an incidence angle [theta1] below
    the critical angle, the solver produces a refracted ray; its direction is
    a unit vector that continues to the far side of the interface, on the
    side of the normal the incident ray travels to; the angle [theta2] it
    makes with the far-side normal is the refraction angle, and
    [n1 sin theta1 = n2 sin theta2], which for the components of the two
    directions along the interface reads [n1 (d . t) = n2 (d' . t)]. *)
Theorem snell_law (r : Ray) (i : Intersection) :
  1 <= n1 i -> 1 <= n2 i ->
  Vector2.dot (direction r) (direction r) = 1 ->
  Vector2.dot (normal i) (normal i) = 1 ->
  Vector2.dot (direction r) (normal i) <= 0 ->
  belowCriticalAngle (n1 i) (n2 i) (incidenceAngle (direction r) (normal i)) ->
  exists t : Ray,
    refracted (solve r i) = Some t
    /\ Vector2.dot (direction t) (direction t) = 1
    /\ Vector2.dot (direction t) (normal i) <= 0
    /\ 0 <= Vector2.dot (direction t) (tangentAlong (direction r) (normal i))
    /\ angleToFarNormal (direction t) (normal i)
         = refractionAngle (n1 i) (n2 i) (incidenceAngle (direction r) (normal i))
    /\ n1 i * sin (incidenceAngle (direction r) (normal i))
         = n2 i * sin (angleToFarNormal (direction t) (normal i))
    /\ n1 i * Vector2.dot (direction r) (tangentAlong (direction r) (normal i))
         = n2 i * Vector2.dot (direction t) (tangentAlong (direction r) (normal i)).
Proof.
  intros Hn1 Hn2 Hd Hn Hface Hbelow.
  set (theta1 := incidenceAngle (direction r) (normal i)) in *.
  pose proof (incidenceAngle_quadrant _ _ Hd Hn Hface) as Htheta.
  fold theta1 in Htheta.
  destruct (belowCriticalAngle_no_reflection _ _ _ Hn1 Hn2 Htheta Hbelow)
    as [Hcheck Hle].
  pose proof (sin_quadrant theta1 Htheta) as [Hs0 Hs1].
  destruct (refractionAngle_sin _ _ _ Hn1 Hn2 Hs0 Hle) as [Hrange Hsnell].
  set (theta2 := refractionAngle (n1 i) (n2 i) theta1) in *.
  assert (Hquadrant : 0 <= theta2 <= PI / 2).
  { subst theta2. unfold refractionAngle. apply asin_quadrant. exact Hrange. }
  assert (Hpi : 0 < PI) by apply PI_RGT_0.
  assert (Htheta2 : 0 <= theta2 <= PI) by lra.
  destruct (refractedDirection_components (direction r) (normal i) theta2 Hn)
    as [Hnormal Htangent].
  pose proof (sin_quadrant theta2 Hquadrant) as [Hs2 _].
  assert (Hc2 : 0 <= cos theta2) by (apply cos_ge_0; lra).
  unfold solve. fold theta1. rewrite Hcheck. fold theta2.
  eexists. split; [reflexivity |]. cbn [direction].
  rewrite (refractedDirection_angle _ _ _ Hn Htheta2), Htangent.
  rewrite (incident_tangential _ _ Hd Hn). fold theta1.
  split; [apply refractedDirection_unit; exact Hn |].
  split.
  { assert (Hflip : Vector2.dot (refractedDirection (direction r) (normal i) theta2)
                                (normal i)
                    = - Vector2.dot (refractedDirection (direction r) (normal i) theta2)
                                    (Vector2.negated (normal i))).
    { destruct (refractedDirection _ _ _) as [tx ty].
      destruct (normal i) as [nx ny]. unfold Vector2.dot. simpl. ring. }
    rewrite Hflip, Hnormal. lra. }
  split; [exact Hs2 |].
  split; [reflexivity |].
  split; symmetry; exact Hsnell.
Qed.

(** C2: at an interface that is not in total internal reflection the solver
    produces a reflected ray of power [P * R] and a refracted ray of power
    [P * (1 - R)], which add up to the incident power [P]; at an interface in
    total internal reflection it produces no refracted ray and a reflected
    ray of power [P]. *)
Theorem power_conservation (r : Ray) (i : Intersection) :
  let theta1 := incidenceAngle (direction r) (normal i) in
  let theta2 := refractionAngle (n1 i) (n2 i) theta1 in
  let bigR := reflectance (n1 i) (n2 i) theta1 theta2 in
  if totalInternalReflection (n1 i) (n2 i) theta1
  then refracted (solve r i) = None
       /\ power (reflected (solve r i)) = power r
  else exists t : Ray,
         refracted (solve r i) = Some t
         /\ power (reflected (solve r i)) = power r * bigR
         /\ power t = power r * (1 - bigR)
         /\ power (reflected (solve r i)) + power t = power r.
Proof.
  intros theta1 theta2 bigR. unfold solve. fold theta1.
  destruct (totalInternalReflection (n1 i) (n2 i) theta1).
  - split; reflexivity.
  - fold theta2. fold bigR. eexists. split; [reflexivity |]. simpl.
    repeat split. ring.
Qed.

End SolverFacts.

(** An air-to-glass interface met obliquely: the ray with direction
    (3/5, -4/5) on the sample intersection, with the Fresnel equations for
    the reflectances; the sine of its incidence angle is 3/5. *)
Lemma snell_law_witness :
  sin (SnellFresnel.incidenceAngle
         (SnellFresnel.direction Samples.obliqueRay)
         (SnellFresnel.normal Samples.sampleIntersection)) = (3 / 5)%R
  /\ exists t : SnellFresnel.Ray,
       SnellFresnel.refracted
         (SnellFresnel.solve Samples.obliqueRay Samples.sampleIntersection)
         = Some t
       /\ Vector2.dot (SnellFresnel.direction t) (SnellFresnel.direction t) = 1%R
       /\ (Vector2.dot (SnellFresnel.direction t)
             (SnellFresnel.normal Samples.sampleIntersection) <= 0)%R
       /\ (0 <= Vector2.dot (SnellFresnel.direction t)
                  (SnellFresnel.tangentAlong
                     (SnellFresnel.direction Samples.obliqueRay)
                     (SnellFresnel.normal Samples.sampleIntersection)))%R
       /\ SnellFresnel.angleToFarNormal (SnellFresnel.direction t)
            (SnellFresnel.normal Samples.sampleIntersection)
          = SnellFresnel.refractionAngle 1 (3 / 2)
              (SnellFresnel.incidenceAngle
                 (SnellFresnel.direction Samples.obliqueRay)
                 (SnellFresnel.normal Samples.sampleIntersection))
       /\ (1 * sin (SnellFresnel.incidenceAngle
                      (SnellFresnel.direction Samples.obliqueRay)
                      (SnellFresnel.normal Samples.sampleIntersection))
           = 3 / 2 * sin (SnellFresnel.angleToFarNormal (SnellFresnel.direction t)
                            (SnellFresnel.normal Samples.sampleIntersection)))%R
       /\ (1 * Vector2.dot (SnellFresnel.direction Samples.obliqueRay)
                 (SnellFresnel.tangentAlong
                    (SnellFresnel.direction Samples.obliqueRay)
                    (SnellFresnel.normal Samples.sampleIntersection))
           = 3 / 2 * Vector2.dot (SnellFresnel.direction t)
                       (SnellFresnel.tangentAlong
                          (SnellFresnel.direction Samples.obliqueRay)
                          (SnellFresnel.normal Samples.sampleIntersection)))%R.
Proof.
  split.
  - unfold SnellFresnel.incidenceAngle, Vector2.dot. simpl.
    replace (- (3 / 5 * 0 + - (4 / 5) * 1))%R with (4 / 5)%R by lra.
    rewrite sin_acos by lra. apply sqrt_lem_1; unfold Rsqr; lra.
  - apply (snell_law Samples.obliqueRay Samples.sampleIntersection).
    + simpl. lra.
    + simpl. lra.
    + unfold Vector2.dot. simpl. lra.
    + unfold Vector2.dot. simpl. lra.
    + unfold Vector2.dot. simpl. lra.
    + left. simpl. lra.
Defined.

(** ** The ray propagation engine *)

Section EngineFacts.
Import SnellFresnel PropagationEngine.
Context `{Fresnel} `{Scene}.

Lemma budget_positive (k : nat) : 1 <= budget k.
Proof. destruct k; simpl; lia. Qed.

Lemma budget_closed_form (k : nat) : S (budget k) = 2 ^ S k.
Proof.
  induction k as [| k IH].
  - reflexivity.
  - change (budget (S k)) with (S (2 * budget k)).
    rewrite (Nat.pow_succ_r' 2 (S k)), <- IH. lia.
Qed.

Lemma weight_cons (p : Pending) (q : list Pending) :
  weight (p :: q) = budget (MAX_DEPTH - depth p) + weight q.
Proof. reflexivity. Qed.

Lemma weight_app (a b : list Pending) : weight (a ++ b) = weight a + weight b.
Proof. unfold weight. rewrite map_app, list_sum_app. reflexivity. Qed.

Lemma weight_filter (f : Pending -> bool) (q : list Pending) :
  weight (filter f q) <= weight q.
Proof.
  unfold weight. induction q as [| p q IH]; simpl.
  - lia.
  - destruct (f p); simpl; lia.
Qed.

Lemma weight_zero (q : list Pending) : weight q = 0 -> q = [].
Proof.
  destruct q as [| p q]; [reflexivity |].
  unfold weight. simpl. pose proof (budget_positive (MAX_DEPTH - depth p)). lia.
Qed.

Lemma weight_candidates (p : Pending) (i : Intersection) :
  depth p < MAX_DEPTH ->
  weight (candidates p i) + 1 <= budget (MAX_DEPTH - depth p).
Proof.
  intro Hdepth. unfold candidates, weight.
  replace (MAX_DEPTH - depth p) with (S (MAX_DEPTH - S (depth p))) by lia.
  change (budget (S (MAX_DEPTH - S (depth p))))
    with (S (2 * budget (MAX_DEPTH - S (depth p)))).
  destruct (refracted (solve (ray p) i)); simpl; lia.
Qed.

(** The children of a ray weigh less than the ray. *)
Lemma weight_children (p : Pending) (i : Intersection) :
  weight (children p i) + 1 <= budget (MAX_DEPTH - depth p).
Proof.
  unfold children. destruct (depth p <? MAX_DEPTH) eqn:Hdepth.
  - apply Nat.ltb_lt in Hdepth.
    pose proof (weight_filter (fun c => passesThreshold (ray c)) (candidates p i)).
    pose proof (weight_candidates p i Hdepth). lia.
  - pose proof (budget_positive (MAX_DEPTH - depth p)).
    unfold weight. simpl. lia.
Qed.

(** A turn of the loop on a queue that is not empty lowers its weight. *)
Lemma step_decreases (inp : Inputs) (st : EngineState) :
  queue st <> [] -> weight (queue (step inp st)) + 1 <= weight (queue st).
Proof.
  intro Hne. unfold step. destruct (queue st) as [| p rest]; [contradiction |].
  destruct (nearestIntersection (prisms inp) (environment inp) (ray p)) as [i |];
    simpl.
  - rewrite weight_app, weight_cons. pose proof (weight_children p i). lia.
  - rewrite weight_cons. pose proof (budget_positive (MAX_DEPTH - depth p)). lia.
Qed.

(** With as much fuel as the queue weighs, the loop ends on the empty
    queue. *)
Lemma run_empties (fuel : nat) (inp : Inputs) (st : EngineState) :
  weight (queue st) <= fuel -> queue (run fuel inp st) = [].
Proof.
  revert st. induction fuel as [| fuel IH]; intros st Hfuel.
  - simpl. apply weight_zero. lia.
  - simpl. destruct (queue st) as [| p rest] eqn:Hq.
    + exact Hq.
    + apply IH. pose proof (step_decreases inp st) as Hdec.
      rewrite Hq in Hdec. specialize (Hdec ltac:(discriminate)). lia.
Qed.

Lemma run_done (fuel : nat) (inp : Inputs) (st : EngineState) :
  queue st = [] -> run fuel inp st = st.
Proof.
  intro Hq. destruct fuel as [| fuel]; simpl; [| rewrite Hq]; reflexivity.
Qed.

Lemma run_add (a b : nat) (inp : Inputs) (st : EngineState) :
  run (a + b) inp st = run b inp (run a inp st).
Proof.
  revert st. induction a as [| a IH]; intro st; simpl.
  - reflexivity.
  - destruct (queue st) as [| p rest] eqn:Hq.
    + symmetry. apply run_done. exact Hq.
    + apply IH.
Qed.

Lemma children_admissible (p : Pending) (i : Intersection) :
  Forall admissible (children p i).
Proof.
  unfold children. destruct (depth p <? MAX_DEPTH) eqn:Hdepth; [| constructor].
  apply Nat.ltb_lt in Hdepth. apply Forall_forall. intros c Hc.
  apply filter_In in Hc. destruct Hc as [Hin Hpass].
  unfold admissible. split.
  - unfold candidates in Hin. simpl in Hin.
    destruct Hin as [Heq | Hin].
    + subst c. simpl. lia.
    + destruct (refracted (solve (ray p) i)); simpl in Hin.
      * destruct Hin as [Heq | []]. subst c. simpl. lia.
      * destruct Hin.
  - right. exact Hpass.
Qed.

Lemma step_admissible (inp : Inputs) (st : EngineState) :
  Forall admissible (queue st) -> Forall admissible (queue (step inp st)).
Proof.
  intro Hall. unfold step. destruct (queue st) as [| p rest] eqn:Hq.
  { rewrite Hq. exact Hall. }
  apply Forall_inv_tail in Hall.
  destruct (nearestIntersection (prisms inp) (environment inp) (ray p)) as [i |];
    simpl.
  - apply Forall_app. split; [exact Hall | apply children_admissible].
  - exact Hall.
Qed.

Lemma run_admissible (fuel : nat) (inp : Inputs) (st : EngineState) :
  Forall admissible (queue st) -> Forall admissible (queue (run fuel inp st)).
Proof.
  revert st. induction fuel as [| fuel IH]; intros st Hall; simpl.
  - exact Hall.
  - destruct (queue st) as [| p rest] eqn:Hq.
    + rewrite Hq. constructor.
    + apply IH. apply step_admissible. rewrite Hq. exact Hall.
Qed.

(** C4: for every configuration of prisms and every wavelength the loop of
    the engine, started on the seed ray, ends on the empty work queue within
    [2^(MAX_DEPTH+1) - 1] turns, the fuel [propagate] gives it, and more
    turns change nothing; and whatever the number of turns, every ray in the
    work queue has a depth of at most [MAX_DEPTH] and, unless it is the seed,
    a power that is not below the threshold. *)
Theorem engine_terminates (inp : Inputs) (lambda : R) :
  queue (run (budget MAX_DEPTH) inp (start inp lambda)) = []
  /\ S (budget MAX_DEPTH) = 2 ^ S MAX_DEPTH
  /\ (forall extra : nat,
        output (run (budget MAX_DEPTH + extra) inp (start inp lambda))
          = propagate inp lambda)
  /\ (forall fuel : nat,
        Forall admissible (queue (run fuel inp (start inp lambda)))).
Proof.
  assert (Hempty : queue (run (budget MAX_DEPTH) inp (start inp lambda)) = []).
  { apply run_empties. unfold start. simpl. rewrite weight_cons.
    rewrite Nat.sub_0_r. unfold weight. simpl. lia. }
  split; [exact Hempty |]. split; [apply budget_closed_form |]. split.
  - intro extra. rewrite run_add, (run_done extra inp _ Hempty). reflexivity.
  - intro fuel. apply run_admissible. unfold start. simpl.
    constructor; [| constructor].
    unfold admissible, seed. simpl. split; [lia | left; reflexivity].
Qed.

End EngineFacts.

(** ** Closest points of a bounds *)

Lemma leb_true_iff (a b : R) : Num.leb a b = true <-> (a <= b)%R.
Proof.
  unfold Num.leb. destruct (Rle_dec a b) as [Hle | Hgt]; split; intro Hx;
    solve [ assumption | reflexivity | discriminate | contradiction ].
Qed.

Lemma containsPoint_iff (b : Bounds2.t) (p : Vector2.t) :
  Bounds2.containsPoint b p = true <->
  (Bounds2.minX b <= Vector2.x p <= Bounds2.maxX b
   /\ Bounds2.minY b <= Vector2.y p <= Bounds2.maxY b)%R.
Proof.
  unfold Bounds2.containsPoint, Bounds2.containsCoordinates.
  rewrite !andb_true_iff, !leb_true_iff. tauto.
Qed.

Lemma constrain_within (c lo hi : R) :
  (lo <= hi -> lo <= Bounds2Points.constrain c lo hi <= hi)%R.
Proof.
  intro Hvalid. unfold Bounds2Points.constrain. split.
  - apply Rmax_r.
  - apply Rmax_lub; [apply Rmin_r | exact Hvalid].
Qed.

(** The closest point of a bounds that is not empty lies within it. *)
Lemma closestPointTo_contained (b : Bounds2.t) (p : Vector2.t) :
  Bounds2Points.isValid b ->
  Bounds2.containsPoint b (Bounds2Points.closestPointTo b p) = true.
Proof.
  intros [Hx Hy]. unfold Bounds2Points.closestPointTo.
  destruct (Bounds2.containsCoordinates b (Vector2.x p) (Vector2.y p)) eqn:Hin.
  - exact Hin.
  - apply containsPoint_iff. simpl. split; apply constrain_within; assumption.
Qed.

(** A point within the bounds is its own closest point. *)
Lemma closestPointTo_inside (b : Bounds2.t) (p : Vector2.t) :
  Bounds2.containsPoint b p = true -> Bounds2Points.closestPointTo b p = p.
Proof.
  intro Hin. unfold Bounds2Points.closestPointTo.
  unfold Bounds2.containsPoint in Hin. rewrite Hin. reflexivity.
Qed.

Lemma ltb_true_iff (a b : R) : Num.ltb a b = true <-> (a < b)%R.
Proof.
  unfold Num.ltb. destruct (Rlt_dec a b) as [Hlt | Hge]; split; intro Hx;
    solve [ assumption | reflexivity | discriminate | contradiction ].
Qed.

Lemma getClosestPoint_coordinate (c lo hi : R) :
  (lo <= hi ->
   let r := if Num.ltb c lo then lo else c in
   let r' := if Num.gtb r hi then hi else r in
   lo <= r' <= hi /\ (lo <= c <= hi -> r' = c))%R.
Proof.
  intros Hvalid r r'. subst r' r.
  destruct (Num.ltb c lo) eqn:Hlow.
  - apply ltb_true_iff in Hlow.
    destruct (Num.gtb lo hi) eqn:Hhigh.
    + unfold Num.gtb in Hhigh. apply ltb_true_iff in Hhigh. lra.
    + split; lra.
  - apply ltb_false_iff in Hlow.
    destruct (Num.gtb c hi) eqn:Hhigh.
    + unfold Num.gtb in Hhigh. apply ltb_true_iff in Hhigh. split; lra.
    + apply gtb_false_iff in Hhigh. split; lra.
Qed.

(** [getClosestPoint] of a bounds that is not empty lies within it, and is
    the point itself when the point lies within it. *)
Lemma getClosestPoint_contained (b : Bounds2.t) (px py : R) :
  Bounds2Points.isValid b ->
  Bounds2.containsPoint b (Bounds2Points.getClosestPoint b px py) = true
  /\ (Bounds2.containsPoint b (Vector2.mk px py) = true ->
      Bounds2Points.getClosestPoint b px py = Vector2.mk px py).
Proof.
  intros [Hx Hy].
  pose proof (getClosestPoint_coordinate px _ _ Hx) as Hcx.
  pose proof (getClosestPoint_coordinate py _ _ Hy) as Hcy.
  cbv zeta in Hcx, Hcy. destruct Hcx as [Hrx Hfx], Hcy as [Hry Hfy].
  unfold Bounds2Points.getClosestPoint. split.
  - apply containsPoint_iff. simpl. split; assumption.
  - intro Hin. apply containsPoint_iff in Hin. simpl in Hin.
    destruct Hin as [Hinx Hiny]. apply vector_eq; [apply Hfx | apply Hfy];
      assumption.
Qed.

(** ** WaveSensorNode: rescaling *)

Section RescalingFacts.
Import More_Tools WaveSensorListeners.
Context {Chart : Type}.
Local Open Scope R_scope.

Lemma node_eq (ws ws' : WaveSensor.t) (b p1 p2 : R) (a a' : bool) (c : Chart)
    (tw : option WaveSensorNode.Tween) :
  ws = ws' ->
  WaveSensorNode.mk ws b p1 p2 a a' c tw = WaveSensorNode.mk ws' b p1 p2 a a' c tw.
Proof. intro Heq. rewrite Heq. reflexivity. Qed.

(** X1: whatever the scales, [setWaveSensorNodeScale] leaves probe 1 at the
    end position; and when the previous scale is not zero, the offsets of the
    body and of probe 2 from probe 1 are the old offsets times
    [scale / prevScale]. *)
Theorem setWaveSensorNodeScale_layout
    (endPositionX endPositionY scale : R) (n : WaveSensorNode.t Chart) :
  let ws := WaveSensorNode.waveSensor n in
  let ws' := WaveSensorNode.waveSensor
               (WaveSensorNode.setWaveSensorNodeScale
                  endPositionX endPositionY scale n) in
  let k := scale / WaveSensorNode.bodyNodeScale n in
  Probe.position (WaveSensor.probe1 ws') = Vector2.mk endPositionX endPositionY
  /\ (WaveSensorNode.bodyNodeScale n <> 0 ->
      Vector2.minus (WaveSensor.bodyPosition ws')
                    (Probe.position (WaveSensor.probe1 ws'))
        = Vector2.timesScalar
            (Vector2.minus (WaveSensor.bodyPosition ws)
                           (Probe.position (WaveSensor.probe1 ws))) k
      /\ Vector2.minus (Probe.position (WaveSensor.probe2 ws'))
                       (Probe.position (WaveSensor.probe1 ws'))
           = Vector2.timesScalar
               (Vector2.minus (Probe.position (WaveSensor.probe2 ws))
                              (Probe.position (WaveSensor.probe1 ws))) k).
Proof.
  intros ws ws' k. subst ws' k ws.
  destruct n as [ws s b1 b2 inA inB c tw].
  destruct ws as [vis [body body0] [[p1 p10] ser1 ph1] [[p2 p20] ser2 ph2]].
  destruct body as [bx by'], p1 as [p1x p1y], p2 as [p2x p2y].
  unfold WaveSensorNode.setWaveSensorNodeScale, WaveSensor.bodyPosition,
    Probe.position, Vector2.minus, Vector2.timesScalar. simpl.
  split; [apply vector_eq; ring |].
  intro Hscale. split; apply vector_eq; field; exact Hscale.
Qed.

(** The outcome of one call, part by part. *)
Lemma setWaveSensorNodeScale_explicit
    (ex ey s' s b1 b2 bx by' p1x p1y p2x p2y ph1 ph2 : R)
    (vis : Property.t bool) (body0 p10 p20 : Vector2.t)
    (ser1 ser2 : list WaveSampler.WaveSample) (inA inB : bool) (c : Chart)
    (tw : option WaveSensorNode.Tween) :
  WaveSensorNode.setWaveSensorNodeScale ex ey s'
    (WaveSensorNode.mk
       (WaveSensor.mk vis
          (Property.mk (Vector2.mk bx by') body0)
          (Probe.mk (Property.mk (Vector2.mk p1x p1y) p10) ser1 ph1)
          (Probe.mk (Property.mk (Vector2.mk p2x p2y) p20) ser2 ph2))
       s b1 b2 inA inB c tw)
  = WaveSensorNode.mk
      (WaveSensor.mk vis
         (Property.mk (Vector2.mk (ex + (bx - p1x) * (s' / s))
                                  (ey + (by' - p1y) * (s' / s))) body0)
         (Probe.mk (Property.mk (Vector2.mk ex ey) p10) ser1 ph1)
         (Probe.mk (Property.mk (Vector2.mk (ex + (p2x - p1x) * (s' / s))
                                            (ey + (p2y - p1y) * (s' / s))) p20)
                   ser2 ph2))
      s' s' s' inA inB c tw.
Proof.
  unfold WaveSensorNode.setWaveSensorNodeScale. simpl.
  apply node_eq.
  unfold WaveSensor.translateAllXY, WaveSensor.bodyPosition, Probe.translateXY,
    Probe.setPosition, Probe.position, Property.set, Property.get. simpl.
  f_equal; [f_equal | f_equal; f_equal | f_equal; f_equal];
    apply vector_eq; unfold Rdiv; ring.
Qed.

(** Two calls in a row, the first with a scale that is not zero on a node
    whose scale is not zero, leave the node as the second call alone does. *)
Lemma setWaveSensorNodeScale_twice
    (x1 y1 s1 x2 y2 s2 : R) (n : WaveSensorNode.t Chart) :
  WaveSensorNode.bodyNodeScale n <> 0 -> s1 <> 0 ->
  WaveSensorNode.setWaveSensorNodeScale x2 y2 s2
    (WaveSensorNode.setWaveSensorNodeScale x1 y1 s1 n)
  = WaveSensorNode.setWaveSensorNodeScale x2 y2 s2 n.
Proof.
  intros Hs0 Hs1.
  destruct n as [ws s b1 b2 inA inB c tw]. simpl in Hs0.
  destruct ws as [vis [body body0] [[p1 p10] ser1 ph1] [[p2 p20] ser2 ph2]].
  destruct body as [bx by'], p1 as [p1x p1y], p2 as [p2x p2y].
  rewrite !setWaveSensorNodeScale_explicit.
  apply node_eq.
  f_equal; [f_equal | f_equal; f_equal];
    apply vector_eq; field; auto.
Qed.

Lemma setWaveSensorNodeScale_scale (x1 y1 s1 : R) (n : WaveSensorNode.t Chart) :
  WaveSensorNode.bodyNodeScale (WaveSensorNode.setWaveSensorNodeScale x1 y1 s1 n)
    = s1.
Proof. reflexivity. Qed.

(** X2: the frames of a tween compose: when the node's scale and the scale
    of every frame but the last are not zero, running the frames in order
    leaves the node as the last frame alone would. *)
Theorem tweenFrames_last_frame_wins
    (frames : list (R * R * R)) (px py scale : R) (n : WaveSensorNode.t Chart) :
  WaveSensorNode.bodyNodeScale n <> 0 ->
  Forall (fun f => snd f <> 0) frames ->
  tweenFrames (frames ++ [(px, py, scale)]) n
    = WaveSensorNode.tweenUpdate px py scale n.
Proof.
  intros Hscale Hframes. revert n Hscale.
  induction Hframes as [| f rest Hf Hrest IH]; intros n Hscale.
  - reflexivity.
  - destruct f as [[fx fy] fs]. simpl in Hf.
    change (tweenFrames (((fx, fy, fs) :: rest) ++ [(px, py, scale)]) n)
      with (tweenFrames (rest ++ [(px, py, scale)])
              (WaveSensorNode.tweenUpdate fx fy fs n)).
    rewrite IH.
    + unfold WaveSensorNode.tweenUpdate.
      apply setWaveSensorNodeScale_twice; assumption.
    + unfold WaveSensorNode.tweenUpdate.
      rewrite setWaveSensorNodeScale_scale. exact Hf.
Qed.

End RescalingFacts.

(** The sample node taken through two frames to the scale 1/2 at (7, 8). *)
Lemma tweenFrames_last_frame_wins_witness :
  WaveSensorListeners.tweenFrames
    ([(1, 1, 2); (4, 4, 3)] ++ [(7, 8, 1 / 2)])%R Samples.sampleNode
  = More_Tools.WaveSensorNode.tweenUpdate 7 8 (1 / 2) Samples.sampleNode.
Proof.
  apply (tweenFrames_last_frame_wins [(1, 1, 2); (4, 4, 3)]%R).
  - simpl. lra.
  - repeat constructor; simpl; lra.
Defined.

(** ** WaveSensorNode: placement and drag listeners *)

Section PlacementFacts.
Import More_Tools WaveSensorListeners.
Context {Chart : Type} `{ChartNode Chart}.

Lemma shapeDragStart_placement (modelX modelY : R) (n : WaveSensorNode.t Chart) :
  WaveSensorNode.inBeforeLightLayer2 (WaveSensorNode.shapeDragStart modelX modelY n)
    = false
  /\ WaveSensorNode.inAfterLightLayer2 (WaveSensorNode.shapeDragStart modelX modelY n)
       = true
  /\ WaveSensorNode.sensorVisible (WaveSensorNode.shapeDragStart modelX modelY n)
       = true.
Proof.
  destruct n as [ws s b1 b2 inA inB c tw].
  destruct inA, inB; repeat split.
Qed.

Lemma dragEnd_placement (n : WaveSensorNode.t Chart) :
  WaveSensorNode.inBeforeLightLayer2 (WaveSensorNode.dragEnd true n) = true
  /\ WaveSensorNode.inAfterLightLayer2 (WaveSensorNode.dragEnd true n) = false
  /\ WaveSensorNode.sensorVisible (WaveSensorNode.dragEnd true n) = false.
Proof.
  destruct n as [ws s b1 b2 inA inB c tw].
  destruct inA, inB; repeat split.
Qed.

Lemma handle_placed (e : NodeEvent) (n : WaveSensorNode.t Chart) :
  placed n -> placed (handle e n).
Proof.
  intros [Hlayer Hvisible]. destruct e as [mx my | px py s | inside].
  - destruct (shapeDragStart_placement mx my n) as [Hb [Ha Hv]].
    unfold placed, handle. rewrite Hb, Ha, Hv. split; reflexivity.
  - split; [exact Hlayer | exact Hvisible].
  - destruct inside; [| split; assumption].
    destruct (dragEnd_placement n) as [Hb [Ha Hv]].
    unfold placed, handle. rewrite Hb, Ha, Hv. split; reflexivity.
Qed.

(** X3: a node that is a child of exactly one of the two layers, with its
    sensor visible exactly when that layer is the play area, stays so through
    any sequence of presses on the toolbox shape, tween frames and drag ends;
    and after a drop into the toolbox it is in the toolbox layer with its
    sensor hidden, after a press on the shape in the play area with its
    sensor visible. *)
Theorem node_events_keep_placement
    (events : list NodeEvent) (n : WaveSensorNode.t Chart) :
  placed n ->
  placed (handleAll events n)
  /\ (let dropped := handleAll (events ++ [DragEnded true]) n in
      WaveSensorNode.inBeforeLightLayer2 dropped = true
      /\ WaveSensorNode.inAfterLightLayer2 dropped = false
      /\ WaveSensorNode.sensorVisible dropped = false)
  /\ (forall modelX modelY : R,
        let pressed := handleAll (events ++ [ShapePressed modelX modelY]) n in
        WaveSensorNode.inBeforeLightLayer2 pressed = false
        /\ WaveSensorNode.inAfterLightLayer2 pressed = true
        /\ WaveSensorNode.sensorVisible pressed = true).
Proof.
  intro Hplaced.
  assert (Hall : forall es m, placed m -> placed (handleAll es m)).
  { induction es as [| e es IH]; intros m Hm.
    - exact Hm.
    - apply (IH (handle e m)). apply handle_placed. exact Hm. }
  split; [apply Hall; exact Hplaced |]. split.
  - unfold handleAll. rewrite fold_left_app.
    apply (dragEnd_placement (fold_left (fun n' e => handle e n') events n)).
  - intros modelX modelY. unfold handleAll. rewrite fold_left_app.
    apply (shapeDragStart_placement modelX modelY
             (fold_left (fun n' e => handle e n') events n)).
Qed.

End PlacementFacts.

(** The node in the toolbox, pressed, animated by one frame, and dropped
    outside the toolbox. *)
Lemma node_events_keep_placement_witness :
  WaveSensorListeners.placed
    (WaveSensorListeners.handleAll
       [WaveSensorListeners.ShapePressed 1 1;
        WaveSensorListeners.TweenFrame 1 1 1;
        WaveSensorListeners.DragEnded false]
       MoreSamples.toolboxNode)
  /\ (let dropped :=
        WaveSensorListeners.handleAll
          ([WaveSensorListeners.ShapePressed 1 1;
            WaveSensorListeners.TweenFrame 1 1 1;
            WaveSensorListeners.DragEnded false]
           ++ [WaveSensorListeners.DragEnded true])
          MoreSamples.toolboxNode in
      More_Tools.WaveSensorNode.inBeforeLightLayer2 dropped = true
      /\ More_Tools.WaveSensorNode.inAfterLightLayer2 dropped = false
      /\ More_Tools.WaveSensorNode.sensorVisible dropped = false)
  /\ (forall modelX modelY : R,
        let pressed :=
          WaveSensorListeners.handleAll
            ([WaveSensorListeners.ShapePressed 1 1;
              WaveSensorListeners.TweenFrame 1 1 1;
              WaveSensorListeners.DragEnded false]
             ++ [WaveSensorListeners.ShapePressed modelX modelY])
            MoreSamples.toolboxNode in
        More_Tools.WaveSensorNode.inBeforeLightLayer2 pressed = false
        /\ More_Tools.WaveSensorNode.inAfterLightLayer2 pressed = true
        /\ More_Tools.WaveSensorNode.sensorVisible pressed = true).
Proof.
  apply (@node_events_keep_placement unit MoreSamples.unitChart).
  split; reflexivity.
Defined.

(** ** WaveSensorNode: the drag listeners *)

Section DragListenerFacts.
Import More_Tools WaveSensorListeners.
Context {Chart : Type}.
Variable modelViewTransform : ModelViewTransform.t.
Variable dragBounds : Bounds2.t.
Variable globalToParentPoint : Vector2.t -> Vector2.t.
Local Open Scope R_scope.

Lemma vector_surjective (v : Vector2.t) :
  Vector2.mk (Vector2.x v) (Vector2.y v) = v.
Proof. destruct v. reflexivity. Qed.

(** Moving a vector by what separates it from a target lands on the target. *)
Lemma move_to_target (a b : R) (target : Vector2.t) :
  Vector2.mk (a + (Vector2.x target - a)) (b + (Vector2.y target - b)) = target.
Proof.
  rewrite <- (vector_surjective target) at 3. apply vector_eq; ring.
Qed.

Lemma translateXY_to_target (p : Probe.t) (target : Vector2.t) :
  Probe.position
    (Probe.translateXY (Vector2.x target - Vector2.x (Probe.position p))
                       (Vector2.y target - Vector2.y (Probe.position p)) p)
  = target.
Proof.
  unfold Probe.translateXY, Probe.setPosition, Probe.position, Property.set,
    Property.get. simpl. apply move_to_target.
Qed.

(** X4: a drag of a probe leaves the probe within the drag bounds in model
    coordinates whenever those bounds are not empty, at the dragged-to point
    itself when that point is within them, and it changes neither the series
    nor the phase of the probe. *)
Theorem probeDrag_keeps_probe_in_bounds
    (pointerPoint : Vector2.t) (d : ProbeDrag) :
  let bounds := ModelViewTransform.viewToModelBounds modelViewTransform dragBounds in
  let endPoint := globalToParentPoint pointerPoint in
  let target :=
    Vector2.mk
      (Vector2.x (Probe.position (probe d))
       + ModelViewTransform.viewToModelDeltaX modelViewTransform
           (Vector2.x endPoint - Vector2.x (probeStart d)))
      (Vector2.y (Probe.position (probe d))
       + ModelViewTransform.viewToModelDeltaY modelViewTransform
           (Vector2.y endPoint - Vector2.y (probeStart d))) in
  let d' := probeDrag modelViewTransform dragBounds globalToParentPoint
              pointerPoint d in
  Bounds2Points.isValid bounds ->
  Bounds2.containsPoint bounds (Probe.position (probe d')) = true
  /\ (Bounds2.containsPoint bounds target = true ->
      Probe.position (probe d') = target)
  /\ Probe.series (probe d') = Probe.series (probe d)
  /\ Probe.phase (probe d') = Probe.phase (probe d).
Proof.
  intros bounds endPoint target d' Hvalid.
  assert (Hpos : Probe.position (probe d')
                 = Bounds2Points.closestPointTo bounds target).
  { subst d'. unfold probeDrag. cbn [probe].
    apply translateXY_to_target. }
  split; [| split; [| split]].
  - rewrite Hpos. apply closestPointTo_contained. exact Hvalid.
  - intro Hin. rewrite Hpos. apply closestPointTo_inside. exact Hin.
  - reflexivity.
  - reflexivity.
Qed.

Lemma translateAllXY_offsets (dx dy : R) (ws : WaveSensor.t) :
  offsets (WaveSensor.translateAllXY dx dy ws) = offsets ws.
Proof.
  destruct ws as [vis [body body0] [[p1 p10] ser1 ph1] [[p2 p20] ser2 ph2]].
  destruct body as [bx by'], p1 as [p1x p1y], p2 as [p2x p2y].
  unfold offsets, WaveSensor.translateAllXY, WaveSensor.bodyPosition,
    Probe.translateXY, Probe.setPosition, Probe.position, Vector2.minus. simpl.
  f_equal; apply vector_eq; ring.
Qed.

Lemma restrictTo_offsets (bounds : Bounds2.t)
    (part : WaveSensor.t -> Vector2.t) (ws : WaveSensor.t) :
  offsets (restrictTo bounds part ws) = offsets ws.
Proof. unfold restrictTo. apply translateAllXY_offsets. Qed.

Lemma restrictTo_body (bounds : Bounds2.t) (ws : WaveSensor.t) :
  WaveSensor.bodyPosition (restrictTo bounds WaveSensor.bodyPosition ws)
    = Bounds2Points.closestPointTo bounds (WaveSensor.bodyPosition ws).
Proof.
  unfold restrictTo, WaveSensor.translateAllXY, WaveSensor.bodyPosition at 1,
    Property.set, Property.get. simpl. apply move_to_target.
Qed.

Lemma shapeDrag_waveSensor (pointerPoint : Vector2.t) (d : NodeDrag Chart) :
  let bounds := ModelViewTransform.viewToModelBounds modelViewTransform dragBounds in
  let endPoint := globalToParentPoint pointerPoint in
  WaveSensorNode.waveSensor
    (node (shapeDrag modelViewTransform dragBounds globalToParentPoint
             pointerPoint d))
  = restrictTo bounds WaveSensor.bodyPosition
      (restrictTo bounds (fun w => Probe.position (WaveSensor.probe2 w))
         (restrictTo bounds (fun w => Probe.position (WaveSensor.probe1 w))
            (WaveSensor.translateAllXY
               (ModelViewTransform.viewToModelDeltaX modelViewTransform
                  (Vector2.x endPoint - Vector2.x (start d)))
               (ModelViewTransform.viewToModelDeltaY modelViewTransform
                  (Vector2.y endPoint - Vector2.y (start d)))
               (WaveSensorNode.waveSensor (node d))))).
Proof. reflexivity. Qed.

(** X5: a drag of the toolbox shape moves the sensor as one piece: the
    offsets of both probes from the body stay what they were; when the drag
    bounds in model coordinates are not empty the body ends within them; and
    the next drag starts from the point of this one. *)
Theorem shapeDrag_rigid_and_body_in_bounds
    (pointerPoint : Vector2.t) (d : NodeDrag Chart) :
  let bounds := ModelViewTransform.viewToModelBounds modelViewTransform dragBounds in
  let d' := shapeDrag modelViewTransform dragBounds globalToParentPoint
              pointerPoint d in
  Bounds2Points.isValid bounds ->
  offsets (WaveSensorNode.waveSensor (node d'))
    = offsets (WaveSensorNode.waveSensor (node d))
  /\ Bounds2.containsPoint bounds
       (WaveSensor.bodyPosition (WaveSensorNode.waveSensor (node d'))) = true
  /\ start d' = globalToParentPoint pointerPoint.
Proof.
  intros bounds d' Hvalid. subst d'.
  pose proof (shapeDrag_waveSensor pointerPoint d) as Hws. cbv zeta in Hws.
  fold bounds in Hws. rewrite Hws. split; [| split].
  - rewrite !restrictTo_offsets. apply translateAllXY_offsets.
  - rewrite restrictTo_body. apply closestPointTo_contained. exact Hvalid.
  - reflexivity.
Qed.

Lemma translateBodyXY_body (dx dy : R) (ws : WaveSensor.t) :
  WaveSensor.bodyPosition (translateBodyXY dx dy ws)
    = Vector2.mk (Vector2.x (WaveSensor.bodyPosition ws) + dx)
                 (Vector2.y (WaveSensor.bodyPosition ws) + dy).
Proof. reflexivity. Qed.

(** X6: when view and model deltas of the transform agree and the drag
    bounds are not empty, a drag of the body leaves the body, in view
    coordinates, within the drag bounds, and leaves both probes where they
    were. *)
Theorem bodyDrag_keeps_body_in_bounds
    (pointerPoint : Vector2.t) (d : NodeDrag Chart) :
  let d' := bodyDrag modelViewTransform dragBounds globalToParentPoint
              pointerPoint d in
  ModelViewTransform.deltasAgree modelViewTransform ->
  Bounds2Points.isValid dragBounds ->
  Bounds2.containsPoint dragBounds
    (bodyViewPosition modelViewTransform (node d')) = true
  /\ WaveSensor.probe1 (WaveSensorNode.waveSensor (node d'))
       = WaveSensor.probe1 (WaveSensorNode.waveSensor (node d))
  /\ WaveSensor.probe2 (WaveSensorNode.waveSensor (node d'))
       = WaveSensor.probe2 (WaveSensorNode.waveSensor (node d)).
Proof.
  intros d' [HagreeX HagreeY] Hvalid. split; [| split; reflexivity].
  subst d'. unfold bodyDrag, bodyViewPosition, dragBodyXY. cbn [node].
  set (body := WaveSensor.bodyPosition (WaveSensorNode.waveSensor (node d))).
  set (target := Bounds2Points.closestPointTo dragBounds _).
  change (WaveSensorNode.waveSensor (WaveSensorNode.withWaveSensor ?w _))
    with w.
  rewrite translateBodyXY_body. fold body. cbn [Vector2.x Vector2.y].
  rewrite HagreeX, HagreeY.
  rewrite move_to_target. subst target.
  apply closestPointTo_contained. exact Hvalid.
Qed.

End DragListenerFacts.

(** Probe 1 of the sample sensor, at (1, 2), dragged a hundred to the right
    inside bounds of twenty by twenty: it stops within the bounds. *)
Lemma probeDrag_keeps_probe_in_bounds_witness :
  Bounds2.containsPoint MoreSamples.sampleBounds
    (Probe.position
       (WaveSensorListeners.probe
          (WaveSensorListeners.probeDrag MoreSamples.identityTransform
             MoreSamples.sampleBounds (fun p => p) (Vector2.mk 100 0)
             (WaveSensorListeners.mkProbeDrag (Vector2.mk 0 0)
                (WaveSensor.probe1 Samples.sampleWaveSensor))))) = true.
Proof.
  apply (probeDrag_keeps_probe_in_bounds MoreSamples.identityTransform
           MoreSamples.sampleBounds (fun p => p) (Vector2.mk 100 0)
           (WaveSensorListeners.mkProbeDrag (Vector2.mk 0 0)
              (WaveSensor.probe1 Samples.sampleWaveSensor))).
  split; simpl; lra.
Defined.

(** The sample node dragged by its toolbox shape a hundred to the right
    inside bounds of twenty by twenty: the offsets of its probes stay. *)
Lemma shapeDrag_rigid_and_body_in_bounds_witness :
  WaveSensorListeners.offsets
    (More_Tools.WaveSensorNode.waveSensor
       (WaveSensorListeners.node
          (WaveSensorListeners.shapeDrag MoreSamples.identityTransform
             MoreSamples.sampleBounds (fun p => p) (Vector2.mk 100 0)
             (WaveSensorListeners.mkNodeDrag (Vector2.mk 0 0) Samples.sampleNode))))
  = WaveSensorListeners.offsets Samples.sampleWaveSensor.
Proof.
  apply (shapeDrag_rigid_and_body_in_bounds MoreSamples.identityTransform
           MoreSamples.sampleBounds (fun p => p) (Vector2.mk 100 0)
           (WaveSensorListeners.mkNodeDrag (Vector2.mk 0 0) Samples.sampleNode)).
  split; simpl; lra.
Defined.

(** The body of the sample node dragged a hundred to the right inside
    bounds of twenty by twenty, under the identity transform. *)
Lemma bodyDrag_keeps_body_in_bounds_witness :
  Bounds2.containsPoint MoreSamples.sampleBounds
    (WaveSensorListeners.bodyViewPosition MoreSamples.identityTransform
       (WaveSensorListeners.node
          (WaveSensorListeners.bodyDrag MoreSamples.identityTransform
             MoreSamples.sampleBounds (fun p => p) (Vector2.mk 100 0)
             (WaveSensorListeners.mkNodeDrag (Vector2.mk 0 0) Samples.sampleNode))))
  = true.
Proof.
  apply (bodyDrag_keeps_body_in_bounds MoreSamples.identityTransform
           MoreSamples.sampleBounds (fun p => p) (Vector2.mk 100 0)
           (WaveSensorListeners.mkNodeDrag (Vector2.mk 0 0) Samples.sampleNode)).
  - split; intros c d; reflexivity.
  - split; simpl; lra.
Defined.

(** ** LaserNode: translation and the drag bounds *)

Section LaserTranslationFacts.
Import LaserNodeListeners.
Context {L : Type} `{LaserNode.Laser L} `{Translatable L}.
Variable modelViewTransform : ModelViewTransform.t.
Variable dragBounds : Bounds2.t.
Variable lightImageHeight : R.
Variable globalToParentPoint : Vector2.t -> Vector2.t.
Local Open Scope R_scope.

(** X7: if [laser.translate] moves the emission point by its arguments and
    the eroded drag bounds in model coordinates are not empty, then after a
    translation drag the emission point lies within those bounds, at the
    dragged-to point itself when that point is within them, and the
    translation drag handles are shown. *)
Theorem translation_drag_keeps_laser_in_bounds
    (pointerPoint : Vector2.t) (d : TranslationState L) :
  let bounds :=
    laserDragBoundsInModelValues modelViewTransform dragBounds lightImageHeight in
  let endDrag := globalToParentPoint pointerPoint in
  let target :=
    Vector2.mk
      (Vector2.x (LaserNode.emissionPoint (laser d))
       + ModelViewTransform.viewToModelDeltaX modelViewTransform
           (Vector2.x endDrag - Vector2.x (start d)))
      (Vector2.y (LaserNode.emissionPoint (laser d))
       + ModelViewTransform.viewToModelDeltaY modelViewTransform
           (Vector2.y endDrag - Vector2.y (start d))) in
  let d' := drag modelViewTransform dragBounds lightImageHeight
              globalToParentPoint pointerPoint d in
  translateMovesEmissionPoint ->
  Bounds2Points.isValid bounds ->
  Bounds2.containsPoint bounds (LaserNode.emissionPoint (laser d')) = true
  /\ (Bounds2.containsPoint bounds target = true ->
      LaserNode.emissionPoint (laser d') = target)
  /\ showTranslationDragHandles d' = true.
Proof.
  intros bounds endDrag target d' Hmoves Hvalid.
  assert (Hpos : LaserNode.emissionPoint (laser d')
                 = Bounds2Points.closestPointTo bounds target).
  { subst d'. unfold drag. cbn [laser]. rewrite Hmoves.
    apply move_to_target. }
  split; [| split].
  - rewrite Hpos. apply closestPointTo_contained. exact Hvalid.
  - intro Hin. rewrite Hpos. apply closestPointTo_inside. exact Hin.
  - reflexivity.
Qed.

(** X8: under the same two conditions, the listener of the drag bounds
    leaves the emission point within the eroded bounds in model coordinates,
    and where it was when it was within them already. *)
Theorem dragBoundsChanged_brings_laser_into_bounds (l : L) :
  let bounds :=
    laserDragBoundsInModelValues modelViewTransform dragBounds lightImageHeight in
  let l' := dragBoundsChanged modelViewTransform dragBounds lightImageHeight l in
  translateMovesEmissionPoint ->
  Bounds2Points.isValid bounds ->
  Bounds2.containsPoint bounds (LaserNode.emissionPoint l') = true
  /\ (Bounds2.containsPoint bounds (LaserNode.emissionPoint l) = true ->
      LaserNode.emissionPoint l' = LaserNode.emissionPoint l).
Proof.
  intros bounds l' Hmoves Hvalid.
  set (center := LaserNode.emissionPoint l).
  destruct (getClosestPoint_contained bounds (Vector2.x center) (Vector2.y center)
              Hvalid) as [Hin Hfixed].
  assert (Hpos : LaserNode.emissionPoint l'
                 = Bounds2Points.getClosestPoint bounds
                     (Vector2.x center) (Vector2.y center)).
  { subst l'. unfold dragBoundsChanged. rewrite Hmoves. fold bounds center.
    unfold Vector2.minus. cbn [Vector2.x Vector2.y]. apply move_to_target. }
  split.
  - rewrite Hpos. exact Hin.
  - intro Hinside. rewrite Hpos. rewrite Hfixed.
    + apply vector_surjective.
    + rewrite vector_surjective. exact Hinside.
Qed.

End LaserTranslationFacts.

(** A laser at the origin dragged a hundred to the right inside bounds of
    twenty by twenty, with an image of height 2. *)
Lemma translation_drag_keeps_laser_in_bounds_witness :
  Bounds2.containsPoint
    (LaserNodeListeners.laserDragBoundsInModelValues
       MoreSamples.identityTransform MoreSamples.sampleBounds 2)
    (LaserNode.emissionPoint
       (LaserNodeListeners.laser
          (LaserNodeListeners.drag MoreSamples.identityTransform
             MoreSamples.sampleBounds 2 (fun p => p) (Vector2.mk 100 0)
             (LaserNodeListeners.mkTranslationState (Vector2.mk 0 0)
                (MoreSamples.mkPointLaser (Vector2.mk 0 0) 0) false)))) = true.
Proof.
  apply (translation_drag_keeps_laser_in_bounds MoreSamples.identityTransform
           MoreSamples.sampleBounds 2 (fun p => p) (Vector2.mk 100 0)
           (LaserNodeListeners.mkTranslationState (Vector2.mk 0 0)
              (MoreSamples.mkPointLaser (Vector2.mk 0 0) 0) false)).
  - intros dx dy l. reflexivity.
  - split; simpl; lra.
Defined.

(** The laser at (20, 0), outside bounds of twenty by twenty, when the
    bounds change. *)
Lemma dragBoundsChanged_brings_laser_into_bounds_witness :
  Bounds2.containsPoint
    (LaserNodeListeners.laserDragBoundsInModelValues
       MoreSamples.identityTransform MoreSamples.sampleBounds 2)
    (LaserNode.emissionPoint
       (LaserNodeListeners.dragBoundsChanged MoreSamples.identityTransform
          MoreSamples.sampleBounds 2 MoreSamples.outsideLaser)) = true.
Proof.
  apply (dragBoundsChanged_brings_laser_into_bounds
           MoreSamples.identityTransform MoreSamples.sampleBounds 2
           MoreSamples.outsideLaser).
  - intros dx dy l. reflexivity.
  - split; simpl; lra.
Defined.

(** ** LaserNode: the drag handles *)

Section HandleFacts.
Import LaserNodeHandles.
Local Open Scope Z_scope.

Lemma onPointerEvent_count (e : PointerEvent) (h : Handles) :
  overCount (onPointerEvent e h) = countAfter [e] (overCount h).
Proof. destruct e; reflexivity. Qed.

Lemma onPointerEvent_linked (e : PointerEvent) (h : Handles) :
  linked h -> dragsWhileOver [e] (overCount h) -> linked (onPointerEvent e h).
Proof.
  unfold linked. intros Hlinked Hdrag.
  destruct e; simpl in *; try exact Hlinked; try reflexivity.
  destruct Hdrag as [Hover _]. symmetry. apply Z.ltb_lt. exact Hover.
Qed.

Lemma dragsWhileOver_cons (e : PointerEvent) (rest : list PointerEvent) (count : Z) :
  dragsWhileOver (e :: rest) count ->
  dragsWhileOver [e] count /\ dragsWhileOver rest (countAfter [e] count).
Proof.
  destruct e; simpl; intro Hd; try (split; [exact I | exact Hd]).
  destruct Hd as [Hover Hrest]. repeat split; assumption.
Qed.

Lemma countAfter_cons (e : PointerEvent) (rest : list PointerEvent) (count : Z) :
  countAfter (e :: rest) count = countAfter rest (countAfter [e] count).
Proof. destruct e; reflexivity. Qed.

(** X9: starting with the rotation drag handles shown exactly when the
    count of pointers over or dragging the rotation target is more than
    zero, through any sequence of events of the four listeners in which
    every rotation drag happens while that count is more than zero, the
    count is the starts and enters less the ends and exits, and the rotation
    drag handles are still shown exactly when it is more than zero. *)
Theorem handles_follow_over_count (events : list PointerEvent) (h : Handles) :
  linked h ->
  dragsWhileOver events (overCount h) ->
  overCount (onPointerEvents events h) = countAfter events (overCount h)
  /\ showRotationDragHandles (onPointerEvents events h)
       = (0 <? countAfter events (overCount h)).
Proof.
  revert h. induction events as [| e rest IH]; intros h Hlinked Hdrags.
  - split; [reflexivity | exact Hlinked].
  - apply dragsWhileOver_cons in Hdrags. destruct Hdrags as [Hfirst Hrest].
    rewrite countAfter_cons, <- onPointerEvent_count.
    apply (IH (onPointerEvent e h)).
    + apply onPointerEvent_linked; assumption.
    + rewrite onPointerEvent_count. exact Hrest.
Qed.

End HandleFacts.

(** The pointer enters the rotation target, presses, drags, leaves while
    still dragging, and releases: the handles end hidden, the count at 0. *)
Lemma handles_follow_over_count_witness :
  LaserNodeHandles.overCount
    (LaserNodeHandles.onPointerEvents
       [LaserNodeHandles.RotationEnter; LaserNodeHandles.RotationStart;
        LaserNodeHandles.RotationDrag; LaserNodeHandles.RotationExit;
        LaserNodeHandles.RotationDrag; LaserNodeHandles.RotationEnd]
       (LaserNodeHandles.mkHandles 0 false false)) = 0%Z
  /\ LaserNodeHandles.showRotationDragHandles
       (LaserNodeHandles.onPointerEvents
          [LaserNodeHandles.RotationEnter; LaserNodeHandles.RotationStart;
           LaserNodeHandles.RotationDrag; LaserNodeHandles.RotationExit;
           LaserNodeHandles.RotationDrag; LaserNodeHandles.RotationEnd]
          (LaserNodeHandles.mkHandles 0 false false)) = false.
Proof.
  apply (handles_follow_over_count
           [LaserNodeHandles.RotationEnter; LaserNodeHandles.RotationStart;
            LaserNodeHandles.RotationDrag; LaserNodeHandles.RotationExit;
            LaserNodeHandles.RotationDrag; LaserNodeHandles.RotationEnd]
           (LaserNodeHandles.mkHandles 0 false false)).
  - reflexivity.
  - simpl. lia.
Defined.

(** ** PrismBreakView: the timer *)

Section PrismBreakTimerFacts.
Import PrismBreakView.

Lemma stepInternal_idempotent (view : PrismBreakView.t) :
  stepInternal (stepInternal view) = stepInternal view.
Proof.
  unfold stepInternal at 2 3.
  destruct (String.eqb (colorMode (prismBreakModel view)) "white"
            && dirty (prismBreakModel view)) eqn:Hcond.
  - apply stepInternal_clean. reflexivity.
  - unfold stepInternal. rewrite Hcond. reflexivity.
Qed.

(** X10: in any color mode, however many events the timer fires in a call
    of [step], the view ends as after a single [stepInternal] (and unchanged
    when no event fires), so the white light node runs at most once per
    call; and a view that is not in white-light mode is left as it is, its
    dirty indicator included. *)
Theorem step_recomputes_at_most_once (events : nat) (view : PrismBreakView.t) :
  step (S events) view = stepInternal view
  /\ step 0 view = view
  /\ whiteLightNode (step events view) <= S (whiteLightNode view)
  /\ (String.eqb (colorMode (prismBreakModel view)) "white" = false ->
      step events view = view).
Proof.
  assert (Hmany : forall n, step (S n) view = stepInternal view).
  { induction n as [| n IH].
    - reflexivity.
    - change (step (S (S n)) view) with (stepInternal (step (S n) view)).
      rewrite IH. apply stepInternal_idempotent. }
  assert (Hone : whiteLightNode (stepInternal view) <= S (whiteLightNode view)).
  { unfold stepInternal.
    destruct (String.eqb (colorMode (prismBreakModel view)) "white"
              && dirty (prismBreakModel view)); simpl; lia. }
  split; [apply Hmany |]. split; [reflexivity |]. split.
  - destruct events as [| n]; [simpl; lia | rewrite Hmany; exact Hone].
  - intro Hmode. destruct events as [| n]; [reflexivity |].
    rewrite Hmany. unfold stepInternal. rewrite Hmode. reflexivity.
Qed.

End PrismBreakTimerFacts.

(** ** ToolIconListener *)

Section ToolIconFacts.
Import ToolIconListener.
Context {Event Trail World : Type}.
Variable components : list (Component Event Trail World).
Variable init : Event -> World -> World.

Lemma forEachFrom_skipn (method : Component Event Trail World -> World -> World)
    (turns i : nat) (w : World) :
  length components <= turns + i ->
  forEachFrom components method turns i w
    = fold_left (fun w' c => method c w') (skipn i components) w.
Proof.
  revert i w. induction turns as [| turns IH]; intros i w Hturns.
  - simpl. rewrite skipn_all2 by lia. reflexivity.
  - simpl. destruct (i <? length components)%nat eqn:Hi.
    + apply Nat.ltb_lt in Hi.
      destruct (nth_error components i) as [c |] eqn:Hnth.
      * rewrite IH by lia.
        pose proof (firstn_skipn_middle i components Hnth) as Hsplit.
        assert (Hskip : skipn i components = c :: skipn (S i) components).
        { rewrite <- Hsplit at 1. rewrite skipn_app, skipn_all2.
          - rewrite length_firstn. replace (i - Nat.min i (length components))
              with 0%nat by lia. reflexivity.
          - rewrite length_firstn. lia. }
        rewrite Hskip. reflexivity.
      * apply nth_error_None in Hnth. lia.
    + apply Nat.ltb_ge in Hi. rewrite skipn_all2 by lia. reflexivity.
Qed.

(** X11: each callback forwards the event to every component exactly once,
    in the order of the array: [start] runs [init] and then the start
    methods of the components from first to last, [drag] and [end] run the
    drag and end methods from first to last; with no components [start] is
    [init] alone and [drag] and [end] do nothing. *)
Theorem toolIconListener_forwards_in_order
    (event : Event) (trail : Trail) (w : World) :
  start components init event trail w
    = fold_left (fun w' c => handleForwardedStartEvent c event trail w')
        components (init event w)
  /\ drag components event trail w
       = fold_left (fun w' c => handleForwardedDragEvent c event trail w')
           components w
  /\ finish components event trail w
       = fold_left (fun w' c => handleForwardedEndEvent c event trail w')
           components w
  /\ (components = [] ->
      start components init event trail w = init event w
      /\ drag components event trail w = w
      /\ finish components event trail w = w).
Proof.
  unfold start, drag, finish, forEach.
  rewrite !forEachFrom_skipn by lia. simpl.
  split; [reflexivity |]. split; [reflexivity |]. split; [reflexivity |].
  intro Hnone. rewrite Hnone. repeat split.
Qed.

End ToolIconFacts.

(** ** WaveParticle *)

Section WaveParticleFacts.
Import WaveParticle.
Local Open Scope R_scope.

Lemma write_same (r : Ref) (v : Vector2.t) (s : Store) : write r v s r = v.
Proof. unfold write. rewrite Nat.eqb_refl. reflexivity. Qed.

Lemma write_other (r r' : Ref) (v : Vector2.t) (s : Store) :
  r' <> r -> write r v s r' = s r'.
Proof.
  intro Hne. unfold write. destruct (Nat.eqb r' r) eqn:Heq; [| reflexivity].
  apply Nat.eqb_eq in Heq. contradiction.
Qed.

(** X12: [setX] makes [getX] return the value set and leaves [getY] as it
    was, and likewise [setY]; the write goes to the position object the
    particle was constructed with, so a second particle constructed with the
    same object reads the new value too, while a particle constructed with
    another object is not affected. *)
Theorem waveParticle_set_get (p q : WaveParticle.t) (v : R) (s : Store) :
  getX p (setX p v s) = v
  /\ getY p (setX p v s) = getY p s
  /\ getY p (setY p v s) = v
  /\ getX p (setY p v s) = getX p s
  /\ (position q = position p ->
      getX q (setX p v s) = v /\ getY q (setY p v s) = v)
  /\ (position q <> position p ->
      getX q (setX p v s) = getX q s /\ getY q (setX p v s) = getY q s
      /\ getX q (setY p v s) = getX q s /\ getY q (setY p v s) = getY q s).
Proof.
  unfold getX, getY, setX, setY.
  split; [rewrite write_same; reflexivity |].
  split; [rewrite write_same; reflexivity |].
  split; [rewrite write_same; reflexivity |].
  split; [rewrite write_same; reflexivity |].
  split.
  - intro Hshared. rewrite Hshared, !write_same. split; reflexivity.
  - intro Hother. rewrite !(write_other _ _ _ _ Hother). repeat split.
Qed.

End WaveParticleFacts.

(** ** WaveSensorNode: one scale for all parts *)

Section UniformScaleFacts.
Import More_Tools WaveSensorListeners.
Context {Chart : Type} `{ChartNode Chart}.
Local Open Scope R_scope.

Lemma handle_uniformScale (e : NodeEvent) (n : WaveSensorNode.t Chart) :
  uniformScale n -> uniformScale (handle e n).
Proof.
  intro Huniform. destruct e as [mx my | px py s | inside].
  - destruct n as [ws s b1 b2 inA inB c tw]. exact Huniform.
  - split; reflexivity.
  - destruct inside; [| exact Huniform].
    destruct n as [ws s b1 b2 inA inB c tw]. destruct inA; split; reflexivity.
Qed.

(** X13: the scale of the body, which [setWaveSensorNodeScale] reads as the
    previous scale of all parts, is the scale of both probes too: a node
    whose three parts have one scale keeps one scale through any sequence of
    presses, tween frames and drag ends; [reset] and [setWaveSensorScale]
    give all three parts one scale whatever they had; and after a drop into
    the toolbox that scale is 0.33. *)
Theorem node_events_keep_one_scale
    (events : list NodeEvent) (n : WaveSensorNode.t Chart) :
  uniformScale n ->
  uniformScale (handleAll events n)
  /\ WaveSensorNode.bodyNodeScale (handleAll (events ++ [DragEnded true]) n)
       = 0.33
  /\ (forall m : WaveSensorNode.t Chart,
        uniformScale (WaveSensorNode.reset m)
        /\ WaveSensorNode.bodyNodeScale (WaveSensorNode.reset m) = 0.33)
  /\ (forall (scale : R) (m : WaveSensorNode.t Chart),
        uniformScale (WaveSensorNode.setWaveSensorScale scale m)
        /\ WaveSensorNode.bodyNodeScale
             (WaveSensorNode.setWaveSensorScale scale m) = scale).
Proof.
  intro Huniform.
  assert (Hall : forall es m, uniformScale m -> uniformScale (handleAll es m)).
  { induction es as [| e es IH]; intros m Hm.
    - exact Hm.
    - apply (IH (handle e m)). apply handle_uniformScale. exact Hm. }
  split; [apply Hall; exact Huniform |]. split; [| split].
  - unfold handleAll. rewrite fold_left_app.
    destruct (fold_left (fun n' e => handle e n') events n)
      as [ws s b1 b2 inA inB c tw].
    destruct inA; reflexivity.
  - intro m. destruct m as [ws s b1 b2 inA inB c tw].
    destruct inA; repeat split.
  - intros scale m. repeat split.
Qed.

End UniformScaleFacts.

(** The node in the toolbox, pressed and animated by one frame to the scale
    1/2. *)
Lemma node_events_keep_one_scale_witness :
  WaveSensorListeners.uniformScale
    (WaveSensorListeners.handleAll
       [WaveSensorListeners.ShapePressed 1 1;
        WaveSensorListeners.TweenFrame 1 1 (1 / 2)]
       MoreSamples.toolboxNode).
Proof.
  exact (proj1 (node_events_keep_one_scale
                  [WaveSensorListeners.ShapePressed 1 1;
                   WaveSensorListeners.TweenFrame 1 1 (1 / 2)]
                  MoreSamples.toolboxNode (conj eq_refl eq_refl))).
Defined.

(** ** WaveSensorNode: successive drags of a probe *)

Section ProbeDragComposition.
Import More_Tools WaveSensorListeners.
Variable modelViewTransform : ModelViewTransform.t.
Variable dragBounds : Bounds2.t.
Variable globalToParentPoint : Vector2.t -> Vector2.t.
Local Open Scope R_scope.

(** The outcome of a drag in terms of its target and of the closest point
    of the bounds to the target. *)
Lemma probeDrag_explicit (pointerPoint : Vector2.t) (d : ProbeDrag) :
  let target := probeTarget modelViewTransform globalToParentPoint pointerPoint d in
  let closest :=
    Bounds2Points.closestPointTo
      (ModelViewTransform.viewToModelBounds modelViewTransform dragBounds) target in
  probeDrag modelViewTransform dragBounds globalToParentPoint pointerPoint d
  = mkProbeDrag
      (Vector2.mk
         (Vector2.x (globalToParentPoint pointerPoint)
          + ModelViewTransform.modelToViewDeltaX modelViewTransform
              (Vector2.x closest - Vector2.x target))
         (Vector2.y (globalToParentPoint pointerPoint)
          + ModelViewTransform.modelToViewDeltaY modelViewTransform
              (Vector2.y closest - Vector2.y target)))
      (Probe.setPosition closest (probe d)).
Proof.
  intros target closest. unfold probeDrag.
  fold (probeTarget modelViewTransform globalToParentPoint pointerPoint d).
  fold target. fold closest.
  f_equal. unfold Probe.translateXY. rewrite move_to_target. reflexivity.
Qed.

(** What remains of a model delta when a part of its view delta is taken
    away. *)
Lemma delta_minus (delta back : R -> R) (a m : R) :
  (forall u v : R, delta u + delta v = delta (u + v)) ->
  (forall u : R, delta (back u) = u) ->
  delta (a - back m) = delta a - m.
Proof.
  intros Hadd Hinv.
  assert (Hsum : delta (a - back m) + delta (back m) = delta a).
  { rewrite Hadd. f_equal. ring. }
  rewrite Hinv in Hsum. lra.
Qed.

(** X14: successive drags of a probe compose, whether the bounds stop the
    first one or not: when the deltas of the transform are linear, dragging
    to one point and then to a second leaves the probe and the start point
    as a single drag to the second point does. *)
Theorem probeDrag_twice (first second : Vector2.t) (d : ProbeDrag) :
  ModelViewTransform.deltasLinear modelViewTransform ->
  probeDrag modelViewTransform dragBounds globalToParentPoint second
    (probeDrag modelViewTransform dragBounds globalToParentPoint first d)
  = probeDrag modelViewTransform dragBounds globalToParentPoint second d.
Proof.
  intros [HaddX [HaddY [HinvX HinvY]]].
  pose proof (probeDrag_explicit first d) as Hfirst. cbv zeta in Hfirst.
  set (d1 := probeDrag modelViewTransform dragBounds globalToParentPoint first d)
    in *.
  assert (Htarget : probeTarget modelViewTransform globalToParentPoint second d1
                    = probeTarget modelViewTransform globalToParentPoint second d).
  { rewrite Hfirst. unfold probeTarget at 1. cbn [probe probeStart].
    unfold Probe.setPosition at 1 2, Probe.position at 1 2, Property.set,
      Property.get.
    cbn [Probe.positionProperty Property.value Vector2.x Vector2.y].
    set (target := probeTarget modelViewTransform globalToParentPoint first d).
    set (closest := Bounds2Points.closestPointTo _ target).
    unfold probeTarget. apply vector_eq.
    - replace (Vector2.x (globalToParentPoint second)
               - (Vector2.x (globalToParentPoint first)
                  + ModelViewTransform.modelToViewDeltaX modelViewTransform
                      (Vector2.x closest - Vector2.x target)))
        with (Vector2.x (globalToParentPoint second)
              - Vector2.x (globalToParentPoint first)
              - ModelViewTransform.modelToViewDeltaX modelViewTransform
                  (Vector2.x closest - Vector2.x target)) by ring.
      rewrite (delta_minus _ _ _ _ HaddX HinvX).
      unfold target, probeTarget. cbn [Vector2.x].
      replace (Vector2.x (globalToParentPoint second) - Vector2.x (probeStart d))
        with (Vector2.x (globalToParentPoint first) - Vector2.x (probeStart d)
              + (Vector2.x (globalToParentPoint second)
                 - Vector2.x (globalToParentPoint first))) by ring.
      rewrite <- HaddX. ring.
    - replace (Vector2.y (globalToParentPoint second)
               - (Vector2.y (globalToParentPoint first)
                  + ModelViewTransform.modelToViewDeltaY modelViewTransform
                      (Vector2.y closest - Vector2.y target)))
        with (Vector2.y (globalToParentPoint second)
              - Vector2.y (globalToParentPoint first)
              - ModelViewTransform.modelToViewDeltaY modelViewTransform
                  (Vector2.y closest - Vector2.y target)) by ring.
      rewrite (delta_minus _ _ _ _ HaddY HinvY).
      unfold target, probeTarget. cbn [Vector2.y].
      replace (Vector2.y (globalToParentPoint second) - Vector2.y (probeStart d))
        with (Vector2.y (globalToParentPoint first) - Vector2.y (probeStart d)
              + (Vector2.y (globalToParentPoint second)
                 - Vector2.y (globalToParentPoint first))) by ring.
      rewrite <- HaddY. ring. }
  pose proof (probeDrag_explicit second d1) as Htwo. cbv zeta in Htwo.
  pose proof (probeDrag_explicit second d) as Hone. cbv zeta in Hone.
  rewrite Htwo, Hone, Htarget. subst d1. reflexivity.
Qed.

End ProbeDragComposition.

(** Probe 1 of the sample sensor, at (1, 2), dragged to (300, 3), where the
    bounds of twenty by twenty stop it, and then to (5, 1), under the
    identity transform. *)
Lemma probeDrag_twice_witness :
  WaveSensorListeners.probeDrag MoreSamples.identityTransform
    MoreSamples.sampleBounds (fun p => p) (Vector2.mk 5 1)
    (WaveSensorListeners.probeDrag MoreSamples.identityTransform
       MoreSamples.sampleBounds (fun p => p) (Vector2.mk 300 3)
       (WaveSensorListeners.mkProbeDrag (Vector2.mk 0 0)
          (WaveSensor.probe1 Samples.sampleWaveSensor)))
  = WaveSensorListeners.probeDrag MoreSamples.identityTransform
      MoreSamples.sampleBounds (fun p => p) (Vector2.mk 5 1)
      (WaveSensorListeners.mkProbeDrag (Vector2.mk 0 0)
         (WaveSensor.probe1 Samples.sampleWaveSensor)).
Proof.
  apply (probeDrag_twice MoreSamples.identityTransform MoreSamples.sampleBounds
           (fun p => p) (Vector2.mk 300 3) (Vector2.mk 5 1)
           (WaveSensorListeners.mkProbeDrag (Vector2.mk 0 0)
              (WaveSensor.probe1 Samples.sampleWaveSensor))).
  repeat split; intros; reflexivity.
Defined.

(** ** LaserNode: successive translation drags *)

Section LaserDragComposition.
Import LaserNodeListeners.
Context {L : Type} `{LaserNode.Laser L} `{Translatable L}.
Variable modelViewTransform : ModelViewTransform.t.
Variable dragBounds : Bounds2.t.
Variable lightImageHeight : R.
Variable globalToParentPoint : Vector2.t -> Vector2.t.
Local Open Scope R_scope.

(** The target of a second drag that starts where a first drag, stopped at
    [c], left the start point, is the target of the second drag alone. *)
Lemma second_target (delta back : R -> R) (p s first second c : R) :
  (forall u v : R, delta u + delta v = delta (u + v)) ->
  (forall u : R, delta (back u) = u) ->
  c + delta (second - (first + back (c - (p + delta (first - s)))))
  = p + delta (second - s).
Proof.
  intros Hadd Hinv.
  replace (second - (first + back (c - (p + delta (first - s)))))
    with (second - first - back (c - (p + delta (first - s)))) by ring.
  rewrite (delta_minus delta back _ _ Hadd Hinv).
  replace (second - s) with (first - s + (second - first)) by ring.
  rewrite <- Hadd. ring.
Qed.

Lemma drag_emissionPoint (pointerPoint : Vector2.t) (d : TranslationState L) :
  translateMovesEmissionPoint ->
  LaserNode.emissionPoint
    (laser (drag modelViewTransform dragBounds lightImageHeight
              globalToParentPoint pointerPoint d))
  = Bounds2Points.closestPointTo
      (laserDragBoundsInModelValues modelViewTransform dragBounds lightImageHeight)
      (dragTarget modelViewTransform globalToParentPoint pointerPoint d).
Proof.
  intro Hmoves. unfold drag. cbn [laser]. rewrite Hmoves.
  apply move_to_target.
Qed.

Lemma drag_start (pointerPoint : Vector2.t) (d : TranslationState L) :
  let target := dragTarget modelViewTransform globalToParentPoint pointerPoint d in
  let closest :=
    Bounds2Points.closestPointTo
      (laserDragBoundsInModelValues modelViewTransform dragBounds lightImageHeight)
      target in
  start (drag modelViewTransform dragBounds lightImageHeight
           globalToParentPoint pointerPoint d)
  = Vector2.mk
      (Vector2.x (globalToParentPoint pointerPoint)
       + ModelViewTransform.modelToViewDeltaX modelViewTransform
           (Vector2.x closest - Vector2.x target))
      (Vector2.y (globalToParentPoint pointerPoint)
       + ModelViewTransform.modelToViewDeltaY modelViewTransform
           (Vector2.y closest - Vector2.y target)).
Proof. reflexivity. Qed.

(** X15: successive translation drags of the laser compose, whether the
    bounds stop the first one or not: if [laser.translate] moves the emission
    point by its arguments and the deltas of the transform are linear, then
    dragging to one point and then to a second leaves the emission point and
    the start point where a single drag to the second point leaves them. *)
Theorem translation_drag_twice
    (first second : Vector2.t) (d : TranslationState L) :
  let once := drag modelViewTransform dragBounds lightImageHeight
                globalToParentPoint second d in
  let twice := drag modelViewTransform dragBounds lightImageHeight
                 globalToParentPoint second
                 (drag modelViewTransform dragBounds lightImageHeight
                    globalToParentPoint first d) in
  translateMovesEmissionPoint ->
  ModelViewTransform.deltasLinear modelViewTransform ->
  LaserNode.emissionPoint (laser twice) = LaserNode.emissionPoint (laser once)
  /\ start twice = start once.
Proof.
  intros once twice Hmoves [HaddX [HaddY [HinvX HinvY]]]. subst once twice.
  set (d1 := drag modelViewTransform dragBounds lightImageHeight
               globalToParentPoint first d).
  assert (Htarget : dragTarget modelViewTransform globalToParentPoint second d1
                    = dragTarget modelViewTransform globalToParentPoint second d).
  { unfold dragTarget at 1. subst d1.
    rewrite (drag_emissionPoint first d Hmoves).
    pose proof (drag_start first d) as Hstart. cbv zeta in Hstart.
    rewrite Hstart. cbn [Vector2.x Vector2.y].
    unfold dragTarget. cbn [Vector2.x Vector2.y].
    apply vector_eq.
    - apply (second_target _ _ _ _ _ _ _ HaddX HinvX).
    - apply (second_target _ _ _ _ _ _ _ HaddY HinvY). }
  split.
  - rewrite !drag_emissionPoint by exact Hmoves. rewrite Htarget. reflexivity.
  - pose proof (drag_start second d1) as Htwo. cbv zeta in Htwo.
    pose proof (drag_start second d) as Hone. cbv zeta in Hone.
    rewrite Htwo, Hone, Htarget. reflexivity.
Qed.

End LaserDragComposition.

(** A laser at the origin dragged to (300, 3), where the bounds stop it,
    and then to (5, 1), under the identity transform. *)
Lemma translation_drag_twice_witness :
  LaserNode.emissionPoint
    (LaserNodeListeners.laser
       (LaserNodeListeners.drag MoreSamples.identityTransform
          MoreSamples.sampleBounds 2 (fun p => p) (Vector2.mk 5 1)
          (LaserNodeListeners.drag MoreSamples.identityTransform
             MoreSamples.sampleBounds 2 (fun p => p) (Vector2.mk 300 3)
             (LaserNodeListeners.mkTranslationState (Vector2.mk 0 0)
                (MoreSamples.mkPointLaser (Vector2.mk 0 0) 0) false))))
  = LaserNode.emissionPoint
      (LaserNodeListeners.laser
         (LaserNodeListeners.drag MoreSamples.identityTransform
            MoreSamples.sampleBounds 2 (fun p => p) (Vector2.mk 5 1)
            (LaserNodeListeners.mkTranslationState (Vector2.mk 0 0)
               (MoreSamples.mkPointLaser (Vector2.mk 0 0) 0) false))).
Proof.
  apply (translation_drag_twice MoreSamples.identityTransform
           MoreSamples.sampleBounds 2 (fun p => p)
           (Vector2.mk 300 3) (Vector2.mk 5 1)
           (LaserNodeListeners.mkTranslationState (Vector2.mk 0 0)
              (MoreSamples.mkPointLaser (Vector2.mk 0 0) 0) false)).
  - intros dx dy l. reflexivity.
  - repeat split; intros; reflexivity.
Defined.
